(** * Event context and post forwarding of the Spotted DMI bot

    A shallow embedding of [modules/utils/info_util.py]: the [EventInfo]
    wrapper, its derived accessors, the three post-forwarding operations and
    the sign generator, followed by the properties of the specification that
    concern them.

    Python objects become records, [None] becomes [option], the mutable
    [bot_data] dictionary becomes a [gmap] with string keys, and every method
    that talks to Telegram or to the stores is a computation in a state and
    exception monad: mutations made before an exception is raised stay in the
    resulting world, as they do in Python. *)

From Stdlib Require Import ZArith String Ascii List.
From stdpp Require Import base option list strings gmap pretty.

Local Open Scope Z_scope.
Local Open Scope string_scope.
Local Open Scope list_scope.

Set Warnings "-register-all".

(** ** Telegram objects (the fields the module reads) *)

(** [telegram.ReplyMarkup]: an inline keyboard, rows of (label, callback data). *)
Definition ReplyMarkup : Type := list (list (string * string)).

Module User.
Record t : Type := mk { id : Z; username : option string }.
End User.

Module Chat.
Record t : Type := mk { id : Z; type : string }.
(** [telegram.Chat.PRIVATE] *)
Definition PRIVATE : string := "private".
End Chat.

Module PollOption.
Record t : Type := mk { text : string; voter_count : Z }.
End PollOption.

Module Poll.
Record t : Type := mk {
  question : string;
  options : list PollOption.t;
  type : string;
  allows_multiple_answers : bool;
  correct_option_id : option Z;
  is_anonymous : bool
}.
End Poll.

(** Attachments whose content the module never inspects: only their presence
    matters.  The payload is the Telegram [file_id]. *)
Module Media.
Record t : Type := mk { file_id : string }.
End Media.

Module Message.
Inductive t : Type := mk {
  message_id : Z;
  chat : Chat.t;
  from_user : option User.t;
  text : option string;
  photo : list Media.t;               (* [[]] when the message has no photo *)
  voice : option Media.t;
  audio : option Media.t;
  video : option Media.t;
  animation : option Media.t;
  sticker : option Media.t;
  poll : option Poll.t;
  reply_markup : option ReplyMarkup;
  reply_to_message : option t;
  forward_from_chat : option Chat.t;
  forward_from_message_id : option Z
}.
(** [Message.chat_id] is the property [self.chat.id]. *)
Definition chat_id (m : t) : Z := Chat.id (chat m).
End Message.

Module CallbackQuery.
Record t : Type := mk {
  id : string;
  from_user : User.t;
  message : option Message.t;
  data : option string
}.
End CallbackQuery.

Module Update.
Record t : Type := mk {
  message : option Message.t;
  callback_query : option CallbackQuery.t
}.
End Update.

(** ** Python values, exceptions, outcomes *)

(** The values an [a or b or ...] chain over the content fields can return. *)
Inductive pyval : Type :=
| PyNone
| PyStr (s : string)
| PyList (l : list Media.t)
| PyMedia (o : Media.t)
| PyPoll (p : Poll.t).

(** Python truth value: [None], the empty string and the empty list are false. *)
Definition truthy (v : pyval) : bool :=
  match v with
  | PyNone => false
  | PyStr s => negb (String.eqb s "")
  | PyList l => match l with [] => false | _ :: _ => true end
  | PyMedia _ => true
  | PyPoll _ => true
  end.

(** [a or b]: [a] when it is true, else [b]. *)
Definition py_or (a b : pyval) : pyval := if truthy a then a else b.

Definition of_text (o : option string) : pyval :=
  match o with Some s => PyStr s | None => PyNone end.
Definition of_media (o : option Media.t) : pyval :=
  match o with Some x => PyMedia x | None => PyNone end.
Definition of_poll (o : option Poll.t) : pyval :=
  match o with Some p => PyPoll p | None => PyNone end.

Inductive exn : Type :=
| AttributeError                 (* attribute access on [None] *)
| KeyError (key : string)        (* dictionary lookup or deletion of a missing key *)
| IndexError                     (* [random.choice] of an empty sequence *)
| BadRequest (msg : string)      (* [telegram.error.BadRequest] *)
| TelegramError (msg : string).  (* any other [telegram.error] class *)

Inductive outcome (A : Type) : Type :=
| Returns (a : A)
| Raises (e : exn).
Arguments Returns {A} a.
Arguments Raises {A} e.

(** [str(x)] of an integer, and of an optional integer inside an f-string. *)
Definition str_int (z : Z) : string := pretty z.
Definition str_opt_int (o : option Z) : string :=
  match o with Some z => str_int z | None => "None" end.

(** [s.split(sep)] for a one-character separator: never the empty list. *)
Fixpoint split (sep : ascii) (s : string) : list string :=
  match s with
  | EmptyString => [""]
  | String c r =>
      if Ascii.eqb c sep then "" :: split sep r
      else match split sep r with
           | h :: t => String c h :: t
           | [] => [String c ""]
           end
  end.

Definition newline : ascii := Ascii.ascii_of_nat 10.

(** Every character of [s] satisfies [P]. *)
Fixpoint string_forallb (P : ascii → bool) (s : string) : bool :=
  match s with
  | EmptyString => true
  | String c r => P c && string_forallb P r
  end.

(** The characters [str] of an integer is made of. *)
Definition numeral_char (c : ascii) : bool :=
  match c with
  | "-" | "0" | "1" | "2" | "3" | "4" | "5" | "6" | "7" | "8" | "9" => true
  | _ => false
  end%char.

(** ** The bot API, the stores and the world *)

Module Bot.
(** The calls of [telegram.Bot] the module makes, with the arguments it
    passes.  [send_poll] is called without [is_anonymous]; the method's
    default, [True], is recorded in the call. *)
Inductive Call : Type :=
| send_poll (chat_id : Z) (question : string) (options : list string)
            (type : string) (allows_multiple_answers : bool)
            (correct_option_id : option Z) (is_anonymous : bool)
            (reply_markup : option ReplyMarkup)
| copy_message (chat_id from_chat_id message_id : Z)
               (reply_markup : option ReplyMarkup)
| send_message (chat_id : Z) (text : string)
               (reply_markup : option ReplyMarkup)
               (reply_to_message_id : option Z)
| getChat (chat_id : Z).
End Bot.

(** What happened outside the process, in order: the bot calls and the reads
    of the user table. *)
Inductive Effect : Type :=
| BotCall (c : Bot.Call)
| UserIsCredited (user_id : Z).

Module PendingPost.
(** Modelled from the spec: [PendingPost] of modules.data, absent from the
    sources at hand.  "persist a PendingPost linking the original message to
    its admin-group copy": the record keeps the three arguments of
    [PendingPost.create]. *)
Record t : Type := mk {
  user_message : Message.t;
  group_id : Z;
  g_message_id : Z
}.
End PendingPost.

Module PublishedPost.
(** Modelled from the spec: [PublishedPost] of modules.data, absent from the
    sources at hand.  "tracked by (chat id, message id)". *)
Record t : Type := mk { channel_id : Z; c_message_id : Z }.
End PublishedPost.

Record World : Type := mkWorld {
  bot_data : gmap string Z;              (* [ctx.bot_data] *)
  pending_posts : list PendingPost.t;
  published_posts : list PublishedPost.t;
  effects : list Effect;                 (* oldest first *)
  draws : nat                            (* random choices made so far *)
}.

(** [config_map['meme']] *)
Record Config : Type := mkConfig {
  group_id : Z;
  channel_id : Z;
  channel_group_id : Z;
  comments : bool
}.

(** Everything the module consumes and does not define: the configuration,
    the keyboards of keyboard_util, the markdown resource, the user table,
    the random source, and Telegram's answers.  An answer may depend on all
    that happened before the call. *)
Record Env : Type := mkEnv {
  config : Config;
  get_approve_kb : ReplyMarkup;
  get_vote_kb : ReplyMarkup;
  anonym_names : string;                          (* [read_md("anonym_names")] *)
  is_credited : Z → bool;                         (* [User(user_id).is_credited] *)
  rng : nat → nat;                                (* the n-th random draw *)
  sent_message_id : list Effect → Bot.Call → outcome Z;
      (* [.message_id] of the message a sending call returns *)
  chat_username : list Effect → Z → outcome (option string)
      (* [getChat(id).username] *)
}.

(** ** The monad of methods *)

Definition M (A : Type) : Type := World → outcome A * World.

Definition ret {A} (a : A) : M A := λ w, (Returns a, w).
Definition raise {A} (e : exn) : M A := λ w, (Raises e, w).
Definition bind {A B} (m : M A) (k : A → M B) : M B :=
  λ w, match m w with
       | (Returns a, w') => k a w'
       | (Raises e, w') => (Raises e, w')
       end.

Declare Scope py_scope.
Delimit Scope py_scope with py.
Notation "x <- m ;; k" := (bind m (λ x, k))
  (at level 100, m at next level, right associativity) : py_scope.
Notation "m ;;; k" := (bind m (λ _, k))
  (at level 100, right associativity) : py_scope.
Local Open Scope py_scope.

(** [o.attr] where [o] may be [None]. *)
Definition attr {A} (o : option A) : M A :=
  match o with Some a => ret a | None => raise AttributeError end.

(** [try: body except BadRequest: handler] *)
Definition try_except_BadRequest {A} (body : M A) (handler : string → M A) : M A :=
  λ w, match body w with
       | (Raises (BadRequest msg), w') => handler msg w'
       | r => r
       end.

(** ** World updates *)

Definition log_effect (e : Effect) (w : World) : World :=
  mkWorld (bot_data w) (pending_posts w) (published_posts w)
          (effects w ++ [e]) (draws w).

Definition set_bot_data (d : gmap string Z) (w : World) : World :=
  mkWorld d (pending_posts w) (published_posts w) (effects w) (draws w).

Definition add_pending (p : PendingPost.t) (w : World) : World :=
  mkWorld (bot_data w) (pending_posts w ++ [p]) (published_posts w)
          (effects w) (draws w).

Definition add_published (p : PublishedPost.t) (w : World) : World :=
  mkWorld (bot_data w) (pending_posts w) (published_posts w ++ [p])
          (effects w) (draws w).

Definition count_draw (w : World) : World :=
  mkWorld (bot_data w) (pending_posts w) (published_posts w)
          (effects w) (S (draws w)).

(** ** Primitive operations *)

(** A sending call of the bot, reduced to the [message_id] of what it returns. *)
Definition bot_send (env : Env) (c : Bot.Call) : M Z :=
  λ w, (sent_message_id env (effects w) c, log_effect (BotCall c) w).

(** [bot.getChat(chat_id).username] *)
Definition bot_getChat_username (env : Env) (chat_id : Z) : M (option string) :=
  λ w, (chat_username env (effects w) chat_id,
        log_effect (BotCall (Bot.getChat chat_id)) w).

(** [User(user_id).is_credited] *)
Definition User_is_credited (env : Env) (user_id : Z) : M bool :=
  λ w, (Returns (is_credited env user_id), log_effect (UserIsCredited user_id) w).

(** The element the [n]-th random draw selects in [l]. *)
Definition pick (env : Env) (n : nat) (l : list string) : string :=
  nth (rng env n mod length l)%nat l "".

(** [random.choice(l)] *)
Definition choice (env : Env) (l : list string) : M string :=
  λ w, match l with
       | [] => (Raises IndexError, w)
       | _ :: _ => (Returns (pick env (draws w) l), count_draw w)
       end.

(** Modelled from the spec: [PendingPost.create] of modules.data, absent from
    the sources at hand; it persists one record built from its arguments. *)
Definition PendingPost_create (user_message : Message.t) (group_id g_message_id : Z)
  : M unit :=
  λ w, (Returns tt,
        add_pending (PendingPost.mk user_message group_id g_message_id) w).

(** Modelled from the spec: [PublishedPost.create] of modules.data, absent
    from the sources at hand; it persists one record built from its arguments. *)
Definition PublishedPost_create (channel_id c_message_id : Z) : M unit :=
  λ w, (Returns tt, add_published (PublishedPost.mk channel_id c_message_id) w).

(** [self.bot_data[key]] *)
Definition bot_data_get (key : string) : M Z :=
  λ w, match bot_data w !! key with
       | Some v => (Returns v, w)
       | None => (Raises (KeyError key), w)
       end.

(** [self.bot_data[key] = v] *)
Definition bot_data_set (key : string) (v : Z) : M unit :=
  λ w, (Returns tt, set_bot_data (<[key := v]> (bot_data w)) w).

(** [del self.bot_data[key]] *)
Definition bot_data_del (key : string) : M unit :=
  λ w, match bot_data w !! key with
       | Some _ => (Returns tt, set_bot_data (delete key (bot_data w)) w)
       | None => (Raises (KeyError key), w)
       end.

(** The f-string [f"{chat_id},{message_id}"]. *)
Definition correlation_key (chat_id : Z) (message_id : option Z) : string :=
  str_int chat_id +:+ "," +:+ str_opt_int message_id.

(** ** EventInfo *)

(** The bot handle and the dispatch context of the Python object are the
    [Env] and the [World] the methods run in. *)
Record EventInfo : Type := mkEventInfo {
  update : option Update.t;
  message : option Message.t;
  query : option CallbackQuery.t
}.

Definition chat_id (ev : EventInfo) : option Z :=
  match message ev with
  | None => None
  | Some m => Some (Message.chat_id m)
  end.

Definition chat_type (ev : EventInfo) : option string :=
  match message ev with
  | None => None
  | Some m => Some (Chat.type (Message.chat m))
  end.

Definition is_private_chat (ev : EventInfo) : option bool :=
  match chat_type ev with
  | None => None
  | Some t => Some (String.eqb t Chat.PRIVATE)
  end.

Definition text (ev : EventInfo) : option string :=
  match message ev with
  | None => None
  | Some m => Message.text m
  end.

Definition message_id (ev : EventInfo) : option Z :=
  match message ev with
  | None => None
  | Some m => Some (Message.message_id m)
  end.

Definition is_valid_message_type (ev : EventInfo) : pyval :=
  match message ev with
  | None => PyNone
  | Some m =>
      py_or (of_text (Message.text m))
     (py_or (PyList (Message.photo m))
     (py_or (of_media (Message.voice m))
     (py_or (of_media (Message.audio m))
     (py_or (of_media (Message.video m))
     (py_or (of_media (Message.animation m))
     (py_or (of_media (Message.sticker m))
            (of_poll (Message.poll m))))))))
  end.

Definition reply_markup (ev : EventInfo) : option ReplyMarkup :=
  match message ev with
  | None => None
  | Some m => Message.reply_markup m
  end.

(** [x.from_user.id] where [from_user] may be [None]. *)
Definition sender_attr {A} (f : User.t → A) (u : option User.t) : outcome A :=
  match u with
  | Some u => Returns (f u)
  | None => Raises AttributeError
  end.

Definition user_id (ev : EventInfo) : outcome (option Z) :=
  match query ev with
  | Some q => Returns (Some (User.id (CallbackQuery.from_user q)))
  | None =>
      match message ev with
      | Some m => sender_attr (λ u, Some (User.id u)) (Message.from_user m)
      | None => Returns None
      end
  end.

Definition user_username (ev : EventInfo) : outcome (option string) :=
  match query ev with
  | Some q => Returns (User.username (CallbackQuery.from_user q))
  | None =>
      match message ev with
      | Some m => sender_attr User.username (Message.from_user m)
      | None => Returns None
      end
  end.

Definition query_id (ev : EventInfo) : option string :=
  match query ev with
  | None => None
  | Some q => Some (CallbackQuery.id q)
  end.

Definition query_data (ev : EventInfo) : option string :=
  match query ev with
  | None => None
  | Some q => CallbackQuery.data q
  end.

Definition from_message (upd : Update.t) : EventInfo :=
  mkEventInfo (Some upd) (Update.message upd) None.

Definition from_callback (upd : Update.t) : outcome EventInfo :=
  match Update.callback_query upd with
  | None => Raises AttributeError
  | Some q => Returns (mkEventInfo (Some upd) (CallbackQuery.message q) (Some q))
  end.

Definition from_job : EventInfo := mkEventInfo None None None.

(** ** Sign generator and post forwarder *)

Definition get_user_sign (env : Env) (user_id : Z) : M string :=
  sign <- choice env (split newline (anonym_names env));;
  credited <- User_is_credited env user_id;;
  if credited then
    username <- bot_getChat_username env user_id;;
    match username with
    | Some u => if String.eqb u "" then ret sign else ret ("@" +:+ u)
    | None => ret sign
    end
  else ret sign.

Definition send_post_to_admins (env : Env) (ev : EventInfo) : M bool :=
  self_message <- attr (message ev);;
  let message := Message.reply_to_message self_message in
  let group_id := group_id (config env) in
  message <- attr message;;
  let poll := Message.poll message in
  sent <- try_except_BadRequest
    (g_message_id <-
       match poll with
       | Some poll =>
           bot_send env
             (Bot.send_poll group_id
                (Poll.question poll)
                (map PollOption.text (Poll.options poll))
                (Poll.type poll)
                (Poll.allows_multiple_answers poll)
                (Poll.correct_option_id poll)
                true
                (Some (get_approve_kb env)))
       | None =>
           bot_send env
             (Bot.copy_message group_id
                (Message.chat_id message)
                (Message.message_id message)
                (Some (get_approve_kb env)))
       end;;
     ret (Some g_message_id))
    (λ _, ret None);;
  match sent with
  | None => ret false
  | Some g_message_id =>
      PendingPost_create message group_id g_message_id;;;
      ret true
  end.

Definition send_post_to_channel (env : Env) (ev : EventInfo) (user_id : Z) : M unit :=
  let message := message ev in
  let channel_id := channel_id (config env) in
  let reply_markup :=
    if negb (comments (config env)) then Some (get_vote_kb env) else None in
  message <- attr message;;
  c_message_id <-
    bot_send env
      (Bot.copy_message channel_id
         (Message.chat_id message)
         (Message.message_id message)
         reply_markup);;
  if negb (comments (config env)) then
    PublishedPost_create channel_id c_message_id;;;
    sign <- get_user_sign env user_id;;
    bot_send env
      (Bot.send_message channel_id ("by: " +:+ sign) None
         (Some (Message.message_id message)));;;
    ret tt
  else
    bot_data_set (correlation_key channel_id (Some c_message_id)) user_id.

Definition send_post_to_channel_group (env : Env) (ev : EventInfo) : M unit :=
  let message := message ev in
  let channel_group_id := channel_group_id (config env) in
  message <- attr message;;
  forward_from_chat <- attr (Message.forward_from_chat message);;
  let forward_from_chat_id := Chat.id forward_from_chat in
  let forward_from_id := Message.forward_from_message_id message in
  user_id <- bot_data_get (correlation_key forward_from_chat_id forward_from_id);;
  bot_data_del (correlation_key forward_from_chat_id forward_from_id);;;
  sign <- get_user_sign env user_id;;
  post_message_id <-
    bot_send env
      (Bot.send_message channel_group_id ("by: " +:+ sign)
         (Some (get_vote_kb env))
         (Some (Message.message_id message)));;
  PublishedPost_create channel_group_id post_message_id.

(** ** A concrete deployment, used to run the definitions *)

Definition demo_approve_kb : ReplyMarkup :=
  [[("Yes", "meme_approve_yes"); ("No", "meme_approve_no")]].
Definition demo_vote_kb : ReplyMarkup :=
  [[("Up", "meme_vote_yes"); ("Down", "meme_vote_no")]].

(** Telegram on a good day: the copy gets id 42, the message sent after it
    43, a poll 44. *)
Definition demo_answer (c : Bot.Call) : outcome Z :=
  match c with
  | Bot.copy_message _ _ _ _ => Returns 42
  | Bot.send_message _ _ _ _ => Returns 43
  | Bot.send_poll _ _ _ _ _ _ _ _ => Returns 44
  | Bot.getChat _ => Returns 0
  end.

(** Admin group -1001, channel -1002, discussion group -1003.  Telegram
    answers a sending call [c] with [answer c] and every [getChat] with
    [handle]; the random source counts 0, 1, 2, ... *)
Definition demo_env (with_comments credited : bool)
    (answer : Bot.Call → outcome Z) (handle : outcome (option string)) : Env :=
  mkEnv (mkConfig (-1001) (-1002) (-1003) with_comments)
        demo_approve_kb demo_vote_kb
        ("Cosmic Llama" +:+ String newline "Silent Otter")
        (λ _, credited)
        (λ n, n)
        (λ _, answer)
        (λ _ _, handle).

Definition demo_world : World := mkWorld ∅ [] [] [] 0.

Definition alice : User.t := User.mk 7 (Some "alice").
Definition bob : User.t := User.mk 8 (Some "bob").
Definition private_chat : Chat.t := Chat.mk 7 "private".
Definition admin_group : Chat.t := Chat.mk (-1001) "group".
Definition channel : Chat.t := Chat.mk (-1002) "channel".
Definition discussion_group : Chat.t := Chat.mk (-1003) "supergroup".

(** A message with no content at all, to be filled in. *)
Definition bare_message (id : Z) (c : Chat.t) (sender : option User.t) : Message.t :=
  Message.mk id c sender None [] None None None None None None None None None None.

Definition with_text (s : string) (m : Message.t) : Message.t :=
  Message.mk (Message.message_id m) (Message.chat m) (Message.from_user m)
    (Some s) (Message.photo m) (Message.voice m) (Message.audio m)
    (Message.video m) (Message.animation m) (Message.sticker m)
    (Message.poll m) (Message.reply_markup m) (Message.reply_to_message m)
    (Message.forward_from_chat m) (Message.forward_from_message_id m).

Definition with_photo (p : list Media.t) (m : Message.t) : Message.t :=
  Message.mk (Message.message_id m) (Message.chat m) (Message.from_user m)
    (Message.text m) p (Message.voice m) (Message.audio m)
    (Message.video m) (Message.animation m) (Message.sticker m)
    (Message.poll m) (Message.reply_markup m) (Message.reply_to_message m)
    (Message.forward_from_chat m) (Message.forward_from_message_id m).

Definition with_sticker (s : Media.t) (m : Message.t) : Message.t :=
  Message.mk (Message.message_id m) (Message.chat m) (Message.from_user m)
    (Message.text m) (Message.photo m) (Message.voice m) (Message.audio m)
    (Message.video m) (Message.animation m) (Some s)
    (Message.poll m) (Message.reply_markup m) (Message.reply_to_message m)
    (Message.forward_from_chat m) (Message.forward_from_message_id m).

Definition with_poll (p : Poll.t) (m : Message.t) : Message.t :=
  Message.mk (Message.message_id m) (Message.chat m) (Message.from_user m)
    (Message.text m) (Message.photo m) (Message.voice m) (Message.audio m)
    (Message.video m) (Message.animation m) (Message.sticker m)
    (Some p) (Message.reply_markup m) (Message.reply_to_message m)
    (Message.forward_from_chat m) (Message.forward_from_message_id m).

Definition replying_to (orig : Message.t) (m : Message.t) : Message.t :=
  Message.mk (Message.message_id m) (Message.chat m) (Message.from_user m)
    (Message.text m) (Message.photo m) (Message.voice m) (Message.audio m)
    (Message.video m) (Message.animation m) (Message.sticker m)
    (Message.poll m) (Message.reply_markup m) (Some orig)
    (Message.forward_from_chat m) (Message.forward_from_message_id m).

Definition forwarded_from (c : Chat.t) (id : Z) (m : Message.t) : Message.t :=
  Message.mk (Message.message_id m) (Message.chat m) (Message.from_user m)
    (Message.text m) (Message.photo m) (Message.voice m) (Message.audio m)
    (Message.video m) (Message.animation m) (Message.sticker m)
    (Message.poll m) (Message.reply_markup m) (Message.reply_to_message m)
    (Some c) (Some id).

Definition demo_poll : Poll.t :=
  Poll.mk "Best editor?"
    [PollOption.mk "vim" 3; PollOption.mk "emacs" 2; PollOption.mk "ed" 9]
    "quiz" false (Some 2) false.

(** Alice's submission in her private chat: a photo, or a poll. *)
Definition photo_post : Message.t :=
  with_photo [Media.mk "AgACAgQAAx"] (bare_message 5 private_chat (Some alice)).
Definition poll_post : Message.t :=
  with_poll demo_poll (bare_message 6 private_chat (Some alice)).

(** Her confirmation, sent as a reply to the submission. *)
Definition confirm_photo : EventInfo :=
  from_message (Update.mk
    (Some (replying_to photo_post
             (with_text "/spot" (bare_message 9 private_chat (Some alice)))))
    None).
Definition confirm_poll : EventInfo :=
  from_message (Update.mk
    (Some (replying_to poll_post
             (with_text "/spot" (bare_message 10 private_chat (Some alice)))))
    None).

(** The admin-group copy of the photo (message 31 there), and the approval
    callback an admin, Bob, fires on it. *)
Definition group_copy : Message.t :=
  with_photo [Media.mk "AgACAgQAAx"] (bare_message 31 admin_group None).
Definition approval : CallbackQuery.t :=
  CallbackQuery.mk "q-77" bob (Some group_copy) (Some "meme_approve_yes").
Definition approve_event : EventInfo :=
  mkEventInfo (Some (Update.mk None (Some approval))) (Some group_copy) (Some approval).

(** A callback fired on a message sent via inline mode carries no message. *)
Definition inline_callback : CallbackQuery.t :=
  CallbackQuery.mk "q-78" alice None (Some "meme_vote_yes").
Definition inline_event : EventInfo :=
  mkEventInfo (Some (Update.mk None (Some inline_callback))) None (Some inline_callback).

(** The echo, in the discussion group, of channel post 42. *)
Definition echo_event : EventInfo :=
  from_message (Update.mk
    (Some (forwarded_from channel 42
             (with_photo [Media.mk "AgACAgQAAx"]
                (bare_message 70 discussion_group None))))
    None).

(** Messages with a single kind of content, and one with none. *)
Definition sticker_only : Message.t :=
  with_sticker (Media.mk "CAACAgIAAx") (bare_message 11 private_chat (Some alice)).
Definition text_only : Message.t :=
  with_text "hello" (bare_message 12 private_chat (Some alice)).
Definition service_message : Message.t := bare_message 13 private_chat (Some alice).
Definition event_of (m : Message.t) : EventInfo :=
  from_message (Update.mk (Some m) None).

(** ** Acknowledging a callback query *)

(** [answer_callback_query] talks to Telegram only: [reply] is what Telegram
    answers to [bot.answer_callback_query(callback_query_id, text)], and a
    BadRequest is logged and dropped. *)
Definition answer_callback_query
    (reply : option string → option string → outcome bool)
    (ev : EventInfo) (text : option string) : outcome unit :=
  match reply (query_id ev) text with
  | Returns _ => Returns tt
  | Raises (BadRequest _) => Returns tt
  | Raises e => Raises e
  end.

(** ** More of the concrete deployment *)

(** Telegram numbering what it sends: the id grows with all that happened. *)
Definition counting_env (with_comments credited : bool)
    (handle : outcome (option string)) : Env :=
  mkEnv (mkConfig (-1001) (-1002) (-1003) with_comments)
        demo_approve_kb demo_vote_kb
        ("Cosmic Llama" +:+ String newline "Silent Otter")
        (λ _, credited)
        (λ n, n)
        (λ past _, Returns (100 + Z.of_nat (length past)))
        (λ _ _, handle).

(** A second approved post, message 32 of the admin group. *)
Definition group_copy_2 : Message.t :=
  with_text "second post" (bare_message 32 admin_group None).
Definition approve_event_2 : EventInfo := event_of group_copy_2.

(** The echo, in the discussion group, of channel post [id]. *)
Definition echo_of (id : Z) : EventInfo :=
  event_of (forwarded_from channel id (bare_message (id + 1000) discussion_group None)).

(** A message written in the discussion group, forwarded from nowhere. *)
Definition chatter : EventInfo :=
  event_of (with_text "nice one" (bare_message 71 discussion_group (Some bob))).

(** The world in which channel post 42 awaits its echo. *)
Definition awaiting_echo : World :=
  set_bot_data {[ "-1002,42" := 7 ]} demo_world.


(** * Properties *)

(** ** Derived accessors *)

Section Accessors.

Implicit Types (ev : EventInfo) (m : Message.t) (q : CallbackQuery.t).

Lemma truthy_py_or (a b : pyval) : truthy (py_or a b) = truthy a || truthy b.
Proof.
  unfold py_or. destruct (truthy a) eqn:Ha; simpl; [exact Ha | reflexivity].
Qed.

Lemma truthy_of_text (o : option string) :
  truthy (of_text o) = true ↔ ∃ s, o = Some s ∧ s ≠ "".
Proof.
  destruct o as [s|]; simpl.
  - rewrite negb_true_iff, String.eqb_neq. split.
    + intros Hs. exists s. split; [reflexivity | exact Hs].
    + intros (s' & [= <-] & Hs). exact Hs.
  - split; [discriminate | intros (s & [=] & _)].
Qed.

Lemma truthy_PyList (l : list Media.t) : truthy (PyList l) = true ↔ l ≠ [].
Proof. destruct l; simpl; split; congruence. Qed.

Lemma truthy_of_media (o : option Media.t) : truthy (of_media o) = true ↔ is_Some o.
Proof.
  destruct o; simpl; split; try discriminate; eauto.
  intros [x [=]].
Qed.

Lemma truthy_of_poll (o : option Poll.t) : truthy (of_poll o) = true ↔ is_Some o.
Proof.
  destruct o; simpl; split; try discriminate; eauto.
  intros [x [=]].
Qed.

(** C5, as amended.  Without a message, the seven accessors that read the
    message return None whatever else the event carries; the four that read
    the callback query first (user_id, user_username, query_id, query_data)
    return None, and do not raise, when the query is absent too.  An event
    built by from_job is such an event. *)
Theorem accessors_absent_without_message ev :
  message ev = None →
  (chat_id ev = None ∧ chat_type ev = None ∧ is_private_chat ev = None ∧
   text ev = None ∧ message_id ev = None ∧
   is_valid_message_type ev = PyNone ∧ reply_markup ev = None) ∧
  (query ev = None →
   user_id ev = Returns None ∧ user_username ev = Returns None ∧
   query_id ev = None ∧ query_data ev = None) ∧
  (message from_job = None ∧ query from_job = None).
Proof.
  intros Hm. split; [|split].
  - unfold chat_id, is_private_chat, chat_type, text, message_id,
      is_valid_message_type, reply_markup.
    rewrite Hm. repeat split.
  - intros Hq. unfold user_id, user_username, query_id, query_data.
    rewrite Hq, Hm. repeat split.
  - split; reflexivity.
Qed.

Lemma accessors_absent_from_job :
  message from_job = None ∧
  (chat_id from_job = None ∧ chat_type from_job = None ∧
   is_private_chat from_job = None ∧ text from_job = None ∧
   message_id from_job = None ∧ is_valid_message_type from_job = PyNone ∧
   reply_markup from_job = None) ∧
  (user_id from_job = Returns None ∧ user_username from_job = Returns None ∧
   query_id from_job = None ∧ query_data from_job = None).
Proof.
  split; [reflexivity|].
  destruct (accessors_absent_without_message from_job eq_refl) as (Hmsg & Hqry & _).
  split; [exact Hmsg | exact (Hqry eq_refl)].
Defined.

(** C5 as stated fails: an event without a message may still carry a
    callback query (one fired on an inline message), and then user_id,
    user_username, query_id and query_data are those of the query. *)
Lemma accessors_absent_without_message_counterexample :
  from_callback (Update.mk None (Some inline_callback)) = Returns inline_event ∧
  message inline_event = None ∧
  user_id inline_event = Returns (Some 7) ∧
  user_username inline_event = Returns (Some "alice") ∧
  query_id inline_event = Some "q-78" ∧
  query_data inline_event = Some "meme_vote_yes" ∧
  ¬ (∀ ev, message ev = None →
       user_id ev = Returns None ∧ user_username ev = Returns None ∧
       query_id ev = None ∧ query_data ev = None).
Proof.
  repeat (split; [reflexivity|]).
  intros H. destruct (H inline_event eq_refl) as (Hid & _). discriminate Hid.
Qed.

(** X16.  With a callback query, user_id and user_username are those of the
    query's sender, whatever the message says; with a message only, and a
    message that has a sender, those of the message's sender; with neither,
    None. *)
Theorem user_prefers_query_sender ev :
  (∀ q, query ev = Some q →
     user_id ev = Returns (Some (User.id (CallbackQuery.from_user q))) ∧
     user_username ev = Returns (User.username (CallbackQuery.from_user q))) ∧
  (∀ m u, query ev = None → message ev = Some m → Message.from_user m = Some u →
     user_id ev = Returns (Some (User.id u)) ∧
     user_username ev = Returns (User.username u)) ∧
  (query ev = None → message ev = None →
     user_id ev = Returns None ∧ user_username ev = Returns None).
Proof.
  unfold user_id, user_username. split; [|split].
  - intros q Hq. rewrite Hq. split; reflexivity.
  - intros m u Hq Hm Hu. rewrite Hq, Hm, Hu. split; reflexivity.
  - intros Hq Hm. rewrite Hq, Hm. split; reflexivity.
Qed.

(** The approval callback is fired by Bob on a message that has no sender of
    its own; Alice's confirmation has no query; a job has neither. *)
Lemma user_prefers_query_sender_witness :
  (query approve_event = Some approval ∧
   user_id approve_event = Returns (Some 8) ∧
   user_username approve_event = Returns (Some "bob")) ∧
  (query confirm_photo = None ∧
   user_id confirm_photo = Returns (Some 7) ∧
   user_username confirm_photo = Returns (Some "alice")) ∧
  (user_id from_job = Returns None ∧ user_username from_job = Returns None).
Proof.
  split; [|split].
  - split; [reflexivity|].
    exact (proj1 (user_prefers_query_sender approve_event) approval eq_refl).
  - split; [reflexivity|].
    exact (proj1 (proj2 (user_prefers_query_sender confirm_photo))
             _ alice eq_refl eq_refl eq_refl).
  - exact (proj2 (proj2 (user_prefers_query_sender from_job)) eq_refl eq_refl).
Defined.

(** C6.  With a message, is_valid_message_type is true exactly when the
    message carries one of the eight kinds: a text (Telegram texts are never
    empty), a photo, a voice, an audio, a video, an animation, a sticker or a
    poll.  The value returned is the first of these that is present, not a
    bool; with none of them it is None. *)
Theorem is_valid_message_type_iff ev m :
  message ev = Some m →
  (truthy (is_valid_message_type ev) = true ↔
     (∃ s, Message.text m = Some s ∧ s ≠ "") ∨
     Message.photo m ≠ [] ∨
     is_Some (Message.voice m) ∨
     is_Some (Message.audio m) ∨
     is_Some (Message.video m) ∨
     is_Some (Message.animation m) ∨
     is_Some (Message.sticker m) ∨
     is_Some (Message.poll m)).
Proof.
  intros Hm. unfold is_valid_message_type. rewrite Hm.
  rewrite !truthy_py_or, !orb_true_iff.
  rewrite truthy_of_text, truthy_PyList, !truthy_of_media, truthy_of_poll.
  reflexivity.
Qed.

(** A sticker alone, a poll alone and a text alone are valid; a message with
    none of the eight kinds is not. *)
Lemma is_valid_message_type_iff_witness :
  truthy (is_valid_message_type (event_of sticker_only)) = true ∧
  truthy (is_valid_message_type (event_of poll_post)) = true ∧
  truthy (is_valid_message_type (event_of text_only)) = true ∧
  truthy (is_valid_message_type (event_of service_message)) ≠ true.
Proof.
  split; [|split; [|split]].
  - apply (proj2 (is_valid_message_type_iff (event_of sticker_only) _ eq_refl)).
    do 6 right. left. eexists. reflexivity.
  - apply (proj2 (is_valid_message_type_iff (event_of poll_post) _ eq_refl)).
    do 7 right. eexists. reflexivity.
  - apply (proj2 (is_valid_message_type_iff (event_of text_only) _ eq_refl)).
    left. exists "hello". split; [reflexivity | discriminate].
  - intros Hv.
    apply (proj1 (is_valid_message_type_iff (event_of service_message) _ eq_refl)) in Hv.
    destruct Hv as [(s & [=] & _) | [Hp | Hrest]].
    + apply Hp. reflexivity.
    + repeat (destruct Hrest as [[x [=]] | Hrest]).
      destruct Hrest as [x [=]].
Defined.

End Accessors.

(** ** Sign generator *)

Section Sign.

Variable env : Env.

(** The configured list of anonymous names. *)
Local Abbreviation names := (split newline (anonym_names env)).

Lemma split_nonempty (sep : ascii) (s : string) : split sep s ≠ [].
Proof.
  destruct s as [|c r]; simpl; [discriminate|].
  destruct (Ascii.eqb c sep); [discriminate|].
  destruct (split sep r); discriminate.
Qed.

Lemma pick_elem_of (n : nat) (l : list string) : l ≠ [] → pick env n l ∈ l.
Proof.
  intros Hl. unfold pick. apply list_elem_of_In, nth_In.
  apply Nat.mod_upper_bound. destruct l; [congruence | simpl; lia].
Qed.

Lemma choice_split (sep : ascii) (s : string) (w : World) :
  choice env (split sep s) w
  = (Returns (pick env (draws w) (split sep s)), count_draw w).
Proof.
  unfold choice. pose proof (split_nonempty sep s) as Hne.
  destruct (split sep s); [congruence | reflexivity].
Qed.

(** What get_user_sign does for a user who is not credited. *)
Lemma get_user_sign_anonymous (user_id : Z) (w : World) :
  is_credited env user_id = false →
  get_user_sign env user_id w
  = (Returns (pick env (draws w) names),
     log_effect (UserIsCredited user_id) (count_draw w)).
Proof.
  intros Hc. unfold get_user_sign, bind. rewrite choice_split.
  unfold User_is_credited. rewrite Hc. reflexivity.
Qed.

(** What get_user_sign does for a credited user, by Telegram's answer. *)
Lemma get_user_sign_credited (user_id : Z) (w : World) :
  is_credited env user_id = true →
  get_user_sign env user_id w
  = (match chat_username env (effects w ++ [UserIsCredited user_id]) user_id with
     | Returns (Some u) =>
         if String.eqb u "" then Returns (pick env (draws w) names)
         else Returns ("@" +:+ u)
     | Returns None => Returns (pick env (draws w) names)
     | Raises e => Raises e
     end,
     log_effect (BotCall (Bot.getChat user_id))
       (log_effect (UserIsCredited user_id) (count_draw w))).
Proof.
  intros Hc. unfold get_user_sign, bind. rewrite choice_split.
  unfold User_is_credited. rewrite Hc.
  unfold bot_getChat_username. simpl.
  destruct (chat_username env _ user_id) as [[u|]|e]; simpl; try reflexivity.
  destruct (String.eqb u ""); reflexivity.
Qed.

(** The first thing get_user_sign lets the outside see is the lookup of the
    user it was given. *)
Lemma get_user_sign_effects (user_id : Z) (w : World) :
  ∃ rest, effects (get_user_sign env user_id w).2
          = effects w ++ UserIsCredited user_id :: rest.
Proof.
  destruct (is_credited env user_id) eqn:Hc.
  - rewrite get_user_sign_credited by exact Hc. simpl.
    rewrite <- app_assoc. eexists. reflexivity.
  - rewrite get_user_sign_anonymous by exact Hc. simpl.
    eexists. reflexivity.
Qed.

(** get_user_sign touches neither the correlation store nor the post stores. *)
Lemma get_user_sign_stores (user_id : Z) (w : World) :
  let w' := (get_user_sign env user_id w).2 in
  bot_data w' = bot_data w ∧ pending_posts w' = pending_posts w ∧
  published_posts w' = published_posts w.
Proof.
  destruct (is_credited env user_id) eqn:Hc.
  - rewrite get_user_sign_credited by exact Hc. simpl. auto.
  - rewrite get_user_sign_anonymous by exact Hc. simpl. auto.
Qed.

(** C9.  For a user whose is_credited is false, get_user_sign returns a line
    of the anonymous-names list, the one selected by a new random draw (the
    draw counter advances by one at each call).  For a user whose is_credited
    is true and for whom getChat yields a non-empty username, it returns "@"
    followed by that username. *)
Theorem get_user_sign_spec (user_id : Z) (w : World) :
  (is_credited env user_id = false →
   ∃ sign w',
     get_user_sign env user_id w = (Returns sign, w') ∧
     sign ∈ names ∧
     sign = pick env (draws w) names ∧
     draws w' = S (draws w)) ∧
  (∀ handle,
     is_credited env user_id = true →
     chat_username env (effects w ++ [UserIsCredited user_id]) user_id
       = Returns (Some handle) →
     handle ≠ "" →
     (get_user_sign env user_id w).1 = Returns ("@" +:+ handle)).
Proof.
  split.
  - intros Hc. rewrite get_user_sign_anonymous by exact Hc.
    eexists _, _. split; [reflexivity|].
    split; [apply pick_elem_of, split_nonempty|].
    split; reflexivity.
  - intros handle Hc Hh Hne. rewrite get_user_sign_credited by exact Hc.
    rewrite Hh. simpl. apply String.eqb_neq in Hne. rewrite Hne. reflexivity.
Qed.

(** C10.  For a user whose is_credited is true but for whom getChat yields no
    username, or an empty one, get_user_sign returns the line of the
    anonymous-names list selected by the random draw, not "@" and a handle. *)
Theorem get_user_sign_fallback (user_id : Z) (w : World) (handle : option string) :
  is_credited env user_id = true →
  chat_username env (effects w ++ [UserIsCredited user_id]) user_id
    = Returns handle →
  handle = None ∨ handle = Some "" →
  ∃ sign,
    (get_user_sign env user_id w).1 = Returns sign ∧
    sign ∈ names ∧
    sign = pick env (draws w) names.
Proof.
  intros Hc Hh Hempty. rewrite get_user_sign_credited by exact Hc.
  rewrite Hh. exists (pick env (draws w) names).
  split; [|split; [apply pick_elem_of, split_nonempty | reflexivity]].
  destruct Hempty as [-> | ->]; reflexivity.
Qed.

End Sign.

(** An uncredited user gets the first name on the first draw and the second
    on the second; a credited user with the handle alice gets "@alice". *)
Lemma get_user_sign_spec_witness :
  (get_user_sign (demo_env false false demo_answer (Returns None)) 7 demo_world).1
    = Returns "Cosmic Llama" ∧
  (get_user_sign (demo_env false false demo_answer (Returns None)) 7
     (count_draw demo_world)).1
    = Returns "Silent Otter" ∧
  (get_user_sign (demo_env false true demo_answer (Returns (Some "alice"))) 7
     demo_world).1
    = Returns "@alice".
Proof.
  split; [|split].
  - destruct (proj1 (get_user_sign_spec
                       (demo_env false false demo_answer (Returns None))
                       7 demo_world) eq_refl)
      as (sign & w' & -> & _ & -> & _).
    reflexivity.
  - destruct (proj1 (get_user_sign_spec
                       (demo_env false false demo_answer (Returns None))
                       7 (count_draw demo_world)) eq_refl)
      as (sign & w' & -> & _ & -> & _).
    reflexivity.
  - apply (proj2 (get_user_sign_spec
                    (demo_env false true demo_answer (Returns (Some "alice")))
                    7 demo_world) "alice" eq_refl eq_refl).
    discriminate.
Defined.

(** A credited user without a username, or with an empty one, gets a name of
    the list. *)
Lemma get_user_sign_fallback_witness :
  (∃ sign,
     (get_user_sign (demo_env false true demo_answer (Returns None)) 7
        demo_world).1 = Returns sign ∧
     sign ∈ ["Cosmic Llama"; "Silent Otter"] ∧ sign = "Cosmic Llama") ∧
  (∃ sign,
     (get_user_sign (demo_env false true demo_answer (Returns (Some ""))) 7
        demo_world).1 = Returns sign ∧
     sign ∈ ["Cosmic Llama"; "Silent Otter"] ∧ sign = "Cosmic Llama").
Proof.
  split.
  - exact (get_user_sign_fallback
             (demo_env false true demo_answer (Returns None))
             7 demo_world None eq_refl eq_refl (or_introl eq_refl)).
  - exact (get_user_sign_fallback
             (demo_env false true demo_answer (Returns (Some "")))
             7 demo_world (Some "") eq_refl eq_refl (or_intror eq_refl)).
Defined.

(** ** Post forwarder: submission to the admins *)

Section Admins.

Variable env : Env.

(** The one call send_post_to_admins makes for the original message. *)
Lemma send_post_to_admins_call (ev : EventInfo) (w : World)
    (reply orig : Message.t) :
  message ev = Some reply →
  Message.reply_to_message reply = Some orig →
  ∃ c,
    (match Message.poll orig with
     | Some p =>
         c = Bot.send_poll (group_id (config env)) (Poll.question p)
               (map PollOption.text (Poll.options p)) (Poll.type p)
               (Poll.allows_multiple_answers p) (Poll.correct_option_id p)
               true (Some (get_approve_kb env))
     | None =>
         c = Bot.copy_message (group_id (config env)) (Message.chat_id orig)
               (Message.message_id orig) (Some (get_approve_kb env))
     end) ∧
    send_post_to_admins env ev w
    = match sent_message_id env (effects w) c with
      | Returns g =>
          (Returns true,
           add_pending (PendingPost.mk orig (group_id (config env)) g)
             (log_effect (BotCall c) w))
      | Raises (BadRequest _) => (Returns false, log_effect (BotCall c) w)
      | Raises e => (Raises e, log_effect (BotCall c) w)
      end.
Proof.
  intros Hm Hr. unfold send_post_to_admins, bind, attr.
  rewrite Hm. simpl. rewrite Hr. simpl.
  unfold try_except_BadRequest, bind, bot_send.
  destruct (Message.poll orig) as [p|]; eexists; (split; [reflexivity|]);
    destruct (sent_message_id env _ _) as [g|[]]; reflexivity.
Qed.

(** C2, as amended.  When the event's message is a reply, send_post_to_admins
    makes one bot call.  If Telegram answers it with BadRequest, the method
    returns False and creates no PendingPost; if the call succeeds, the method
    returns True and creates exactly one PendingPost, linking the original
    message to its copy in the admin group; any other error of the call is
    raised to the caller, and no PendingPost is created.  The correlation
    store and the published posts are never touched. *)
Theorem send_post_to_admins_outcome (ev : EventInfo) (w : World)
    (reply orig : Message.t) :
  message ev = Some reply →
  Message.reply_to_message reply = Some orig →
  ∃ c,
    effects (send_post_to_admins env ev w).2 = effects w ++ [BotCall c] ∧
    bot_data (send_post_to_admins env ev w).2 = bot_data w ∧
    published_posts (send_post_to_admins env ev w).2 = published_posts w ∧
    match sent_message_id env (effects w) c with
    | Returns g =>
        (send_post_to_admins env ev w).1 = Returns true ∧
        pending_posts (send_post_to_admins env ev w).2
        = pending_posts w ++ [PendingPost.mk orig (group_id (config env)) g]
    | Raises (BadRequest _) =>
        (send_post_to_admins env ev w).1 = Returns false ∧
        pending_posts (send_post_to_admins env ev w).2 = pending_posts w
    | Raises e =>
        (send_post_to_admins env ev w).1 = Raises e ∧
        pending_posts (send_post_to_admins env ev w).2 = pending_posts w
    end.
Proof.
  intros Hm Hr.
  destruct (send_post_to_admins_call ev w reply orig Hm Hr) as (c & _ & ->).
  exists c.
  destruct (sent_message_id env (effects w) c) as [g|[]]; simpl; auto.
Qed.

(** C7.  When the original message is a poll, the poll sent to the admin
    group has its question, the texts of its options in order, its type, its
    allows_multiple_answers and its correct_option_id, is anonymous and
    carries the approve keyboard.  Otherwise the original is copied, by its
    chat id and message id, to the admin group with the same keyboard. *)
Theorem send_post_to_admins_preserves (ev : EventInfo) (w : World)
    (reply orig : Message.t) :
  message ev = Some reply →
  Message.reply_to_message reply = Some orig →
  (∀ p, Message.poll orig = Some p →
     effects (send_post_to_admins env ev w).2
     = effects w ++
       [BotCall
          (Bot.send_poll (group_id (config env)) (Poll.question p)
             (map PollOption.text (Poll.options p)) (Poll.type p)
             (Poll.allows_multiple_answers p) (Poll.correct_option_id p)
             true (Some (get_approve_kb env)))]) ∧
  (Message.poll orig = None →
     effects (send_post_to_admins env ev w).2
     = effects w ++
       [BotCall
          (Bot.copy_message (group_id (config env)) (Message.chat_id orig)
             (Message.message_id orig) (Some (get_approve_kb env)))]).
Proof.
  intros Hm Hr.
  destruct (send_post_to_admins_call ev w reply orig Hm Hr) as (c & Hc & ->).
  split.
  - intros p Hp. rewrite Hp in Hc. subst c.
    destruct (sent_message_id env (effects w) _) as [g|[]]; reflexivity.
  - intros Hp. rewrite Hp in Hc. subst c.
    destruct (sent_message_id env (effects w) _) as [g|[]]; reflexivity.
Qed.

End Admins.

(** On a good day the photo is copied and one PendingPost is created; when
    Telegram answers BadRequest the method returns False and creates none. *)
Lemma send_post_to_admins_outcome_witness :
  ((send_post_to_admins (demo_env false false demo_answer (Returns None))
      confirm_photo demo_world).1 = Returns true ∧
   pending_posts
     (send_post_to_admins (demo_env false false demo_answer (Returns None))
        confirm_photo demo_world).2
   = [PendingPost.mk photo_post (-1001) 42]) ∧
  ((send_post_to_admins
      (demo_env false false (λ _, Raises (BadRequest "Message to copy not found"))
         (Returns None))
      confirm_photo demo_world).1 = Returns false ∧
   pending_posts
     (send_post_to_admins
        (demo_env false false (λ _, Raises (BadRequest "Message to copy not found"))
           (Returns None))
        confirm_photo demo_world).2
   = []).
Proof.
  split.
  - destruct (send_post_to_admins_outcome
                (demo_env false false demo_answer (Returns None))
                confirm_photo demo_world _ photo_post eq_refl eq_refl)
      as (c & Hc & _ & _ & Hout).
    injection Hc as <-. exact Hout.
  - destruct (send_post_to_admins_outcome
                (demo_env false false
                   (λ _, Raises (BadRequest "Message to copy not found"))
                   (Returns None))
                confirm_photo demo_world _ photo_post eq_refl eq_refl)
      as (c & _ & _ & _ & Hout).
    exact Hout.
Defined.

(** C2 as stated fails twice over.  An error of the call other than
    BadRequest (here Telegram's Forbidden, raised as Unauthorized) is not
    caught: the method raises it instead of returning False.  And on an event
    that has no message, such as a job's, the method raises AttributeError
    before it calls anything. *)
Lemma send_post_to_admins_outcome_counterexample :
  (send_post_to_admins
     (demo_env false false
        (λ _, Raises (TelegramError "Forbidden: bot was kicked from the group chat"))
        (Returns None))
     confirm_photo demo_world).1
  = Raises (TelegramError "Forbidden: bot was kicked from the group chat") ∧
  (send_post_to_admins (demo_env false false demo_answer (Returns None))
     from_job demo_world).1
  = Raises AttributeError ∧
  ¬ (∀ env ev w, ∃ b : bool, (send_post_to_admins env ev w).1 = Returns b).
Proof.
  split; [reflexivity|]. split; [reflexivity|].
  intros H.
  destruct (H (demo_env false false demo_answer (Returns None)) from_job demo_world)
    as [b Hb].
  discriminate Hb.
Qed.

(** The poll Alice submitted, as it reaches the admin group; and her photo. *)
Lemma send_post_to_admins_preserves_witness :
  effects
    (send_post_to_admins (demo_env false false demo_answer (Returns None))
       confirm_poll demo_world).2
  = [BotCall
       (Bot.send_poll (-1001) "Best editor?" ["vim"; "emacs"; "ed"] "quiz"
          false (Some 2) true (Some demo_approve_kb))] ∧
  effects
    (send_post_to_admins (demo_env false false demo_answer (Returns None))
       confirm_photo demo_world).2
  = [BotCall (Bot.copy_message (-1001) 7 5 (Some demo_approve_kb))].
Proof.
  split.
  - exact (proj1 (send_post_to_admins_preserves
                    (demo_env false false demo_answer (Returns None))
                    confirm_poll demo_world _ poll_post eq_refl eq_refl)
             demo_poll eq_refl).
  - exact (proj2 (send_post_to_admins_preserves
                    (demo_env false false demo_answer (Returns None))
                    confirm_photo demo_world _ photo_post eq_refl eq_refl)
             eq_refl).
Defined.

(** ** Correlation keys *)

Section Keys.

Lemma numeral_char_of_digit (d : N) : numeral_char (pretty_N_char d) = true.
Proof. unfold pretty_N_char. repeat case_match; reflexivity. Qed.

Lemma pretty_N_go_numeral (x : N) (s : string) :
  string_forallb numeral_char s = true →
  string_forallb numeral_char (pretty_N_go x s) = true.
Proof.
  revert s. induction (N.lt_wf_0 x) as [x _ IH]. intros s Hs.
  destruct (decide (0 < x)%N) as [Hpos|Hzero].
  - rewrite pretty_N_go_step by exact Hpos.
    apply IH; [apply N.div_lt; [exact Hpos | reflexivity]|].
    simpl. rewrite numeral_char_of_digit. exact Hs.
  - replace x with 0%N by lia. rewrite pretty_N_go_0. exact Hs.
Qed.

(** [str] of an integer is a sign and digits. *)
Lemma str_int_numeral (z : Z) : string_forallb numeral_char (str_int z) = true.
Proof.
  destruct z as [|p|p]; [reflexivity| |];
    unfold str_int, pretty, pretty_Z, pretty, pretty_positive, pretty, pretty_N;
    (destruct (decide (N.pos p = 0%N)); [discriminate|]).
  - apply pretty_N_go_numeral. reflexivity.
  - simpl. apply pretty_N_go_numeral. reflexivity.
Qed.

Lemma str_opt_int_inj (a b : option Z) : str_opt_int a = str_opt_int b → a = b.
Proof.
  destruct a as [x|], b as [y|]; simpl; intros Heq.
  - f_equal. unfold str_int in Heq. exact (pretty_Z_inj _ _ Heq).
  - pose proof (str_int_numeral x) as Hn. rewrite Heq in Hn. discriminate Hn.
  - pose proof (str_int_numeral y) as Hn. rewrite <- Heq in Hn. discriminate Hn.
  - reflexivity.
Qed.

(** A string is cut in one way only at a separator its head cannot contain. *)
Lemma cut_unique (P : ascii → bool) (sep : ascii) (a a' b b' : string) :
  P sep = false →
  string_forallb P a = true → string_forallb P a' = true →
  a +:+ String sep b = a' +:+ String sep b' → a = a' ∧ b = b'.
Proof.
  intros Hsep. revert a'.
  induction a as [|c a IH]; intros [|c' a']; simpl; intros Ha Ha' Heq.
  - injection Heq as ->. split; reflexivity.
  - injection Heq as <- _. apply andb_true_iff in Ha' as [Hc _]. congruence.
  - injection Heq as -> _. apply andb_true_iff in Ha as [Hc _]. congruence.
  - injection Heq as -> Heq.
    apply andb_true_iff in Ha as [_ Ha]. apply andb_true_iff in Ha' as [_ Ha'].
    destruct (IH a' Ha Ha' Heq) as [-> ->]. split; reflexivity.
Qed.

(** Two posts have the same key only if they are the same post. *)
Lemma correlation_key_inj (c c' : Z) (m m' : option Z) :
  correlation_key c m = correlation_key c' m' → c = c' ∧ m = m'.
Proof.
  unfold correlation_key. intros Heq.
  destruct (cut_unique numeral_char "," (str_int c) (str_int c')
              (str_opt_int m) (str_opt_int m') eq_refl
              (str_int_numeral c) (str_int_numeral c') Heq) as [Hc Hm].
  split; [exact (pretty_Z_inj _ _ Hc) | exact (str_opt_int_inj _ _ Hm)].
Qed.

End Keys.

(** ** Post forwarder: publication *)

Section Channel.

Variable env : Env.

Local Abbreviation channel_of_env := (channel_id (config env)).

(** send_post_to_channel when comments are enabled. *)
Lemma send_post_to_channel_comments (ev : EventInfo) (user_id : Z) (w : World)
    (m : Message.t) :
  comments (config env) = true →
  message ev = Some m →
  let copy :=
    Bot.copy_message channel_of_env (Message.chat_id m) (Message.message_id m) None in
  send_post_to_channel env ev user_id w
  = match sent_message_id env (effects w) copy with
    | Returns c =>
        (Returns tt,
         set_bot_data
           (<[correlation_key channel_of_env (Some c) := user_id]> (bot_data w))
           (log_effect (BotCall copy) w))
    | Raises e => (Raises e, log_effect (BotCall copy) w)
    end.
Proof.
  intros Hc Hm copy. unfold send_post_to_channel, bind, attr.
  rewrite Hm, Hc. simpl. unfold bot_send. fold copy.
  destruct (sent_message_id env (effects w) copy); reflexivity.
Qed.

(** send_post_to_channel when comments are disabled, once the copy and the
    sign have been obtained: the attribution is sent in reply to the id the
    message has in the chat it was copied from. *)
Lemma send_post_to_channel_votes (ev : EventInfo) (user_id : Z) (w w1 : World)
    (m : Message.t) (c : Z) (sign : string) :
  comments (config env) = false →
  message ev = Some m →
  let copy :=
    Bot.copy_message channel_of_env (Message.chat_id m) (Message.message_id m)
      (Some (get_vote_kb env)) in
  sent_message_id env (effects w) copy = Returns c →
  get_user_sign env user_id
    (add_published (PublishedPost.mk channel_of_env c) (log_effect (BotCall copy) w))
  = (Returns sign, w1) →
  (send_post_to_channel env ev user_id w).2
  = log_effect
      (BotCall
         (Bot.send_message channel_of_env ("by: " +:+ sign) None
            (Some (Message.message_id m))))
      w1.
Proof.
  intros Hc Hm copy Hcopy Hsign. unfold send_post_to_channel, bind, attr.
  rewrite Hm, Hc. simpl. fold copy. rewrite Hcopy, Hsign.
  destruct (sent_message_id env (effects w1) _); reflexivity.
Qed.

(** C4.  With comments enabled, send_post_to_channel makes one call, the copy
    into the channel, without reply markup; it creates no PublishedPost and
    sends no attribution; and when the copy returns message id [c], it
    records user_id under the key of (channel id, [c]). *)
Theorem send_post_to_channel_with_comments (ev : EventInfo) (user_id : Z)
    (w : World) (m : Message.t) :
  comments (config env) = true →
  message ev = Some m →
  effects (send_post_to_channel env ev user_id w).2
  = effects w ++
    [BotCall (Bot.copy_message channel_of_env (Message.chat_id m)
                (Message.message_id m) None)] ∧
  published_posts (send_post_to_channel env ev user_id w).2 = published_posts w ∧
  pending_posts (send_post_to_channel env ev user_id w).2 = pending_posts w ∧
  (∀ c,
     sent_message_id env (effects w)
       (Bot.copy_message channel_of_env (Message.chat_id m)
          (Message.message_id m) None) = Returns c →
     (send_post_to_channel env ev user_id w).1 = Returns tt ∧
     bot_data (send_post_to_channel env ev user_id w).2
     = <[correlation_key channel_of_env (Some c) := user_id]> (bot_data w)).
Proof.
  intros Hc Hm. rewrite (send_post_to_channel_comments ev user_id w m Hc Hm).
  split; [|split; [|split]].
  - destruct (sent_message_id env (effects w) _); reflexivity.
  - destruct (sent_message_id env (effects w) _); reflexivity.
  - destruct (sent_message_id env (effects w) _); reflexivity.
  - intros c Hcopy. rewrite Hcopy. split; reflexivity.
Qed.

(** send_post_to_channel_group when the entry of the echoed post is there:
    the entry is deleted, nothing else in the store changes, and the user
    whose preferences are looked up next is the stored one. *)
Lemma send_post_to_channel_group_consumes (ev : EventInfo) (w : World)
    (m : Message.t) (fc : Chat.t) (user_id : Z) :
  message ev = Some m →
  Message.forward_from_chat m = Some fc →
  let key := correlation_key (Chat.id fc) (Message.forward_from_message_id m) in
  bot_data w !! key = Some user_id →
  bot_data (send_post_to_channel_group env ev w).2 = delete key (bot_data w) ∧
  ∃ rest,
    effects (send_post_to_channel_group env ev w).2
    = effects w ++ UserIsCredited user_id :: rest.
Proof.
  intros Hm Hf key Hk. unfold send_post_to_channel_group, bind, attr.
  rewrite Hm. simpl. rewrite Hf. simpl. fold key.
  unfold bot_data_get, bot_data_del. rewrite Hk. simpl. rewrite Hk.
  set (wd := set_bot_data (delete key (bot_data w)) w).
  pose proof (get_user_sign_stores env user_id wd) as (Hb & _ & _).
  pose proof (get_user_sign_effects env user_id wd) as (rest & He).
  destruct (get_user_sign env user_id wd) as [[sign|e] w1]; simpl in *.
  - unfold bot_send, PublishedPost_create.
    destruct (sent_message_id env (effects w1) _); simpl;
      (split; [exact Hb|]); rewrite He, <- app_assoc; eexists; reflexivity.
  - split; [exact Hb|]. eexists. exact He.
Qed.

(** send_post_to_channel_group when the entry is not there: KeyError, and
    the world is as it was. *)
Lemma send_post_to_channel_group_missing (ev : EventInfo) (w : World)
    (m : Message.t) (fc : Chat.t) :
  message ev = Some m →
  Message.forward_from_chat m = Some fc →
  let key := correlation_key (Chat.id fc) (Message.forward_from_message_id m) in
  bot_data w !! key = None →
  send_post_to_channel_group env ev w = (Raises (KeyError key), w).
Proof.
  intros Hm Hf key Hk. unfold send_post_to_channel_group, bind, attr.
  rewrite Hm. simpl. rewrite Hf. simpl. fold key.
  unfold bot_data_get. rewrite Hk. reflexivity.
Qed.

(** C3.  The entry that send_post_to_channel records, with comments enabled,
    for the channel copy [c] is the one send_post_to_channel_group finds for
    a message forwarded from (channel id, [c]): the user looked up is the
    stored one, the entry is gone afterwards while every other entry, so the
    entry of every other post, stays, and a second call for the same message
    raises KeyError and changes nothing. *)
Theorem correlation_entry_consumed_once (ev_pub ev_echo : EventInfo)
    (user_id : Z) (w : World) (m echo : Message.t) (c : Z) (fc : Chat.t) :
  comments (config env) = true →
  message ev_pub = Some m →
  sent_message_id env (effects w)
    (Bot.copy_message channel_of_env (Message.chat_id m)
       (Message.message_id m) None) = Returns c →
  message ev_echo = Some echo →
  Message.forward_from_chat echo = Some fc →
  Chat.id fc = channel_of_env →
  Message.forward_from_message_id echo = Some c →
  let key := correlation_key channel_of_env (Some c) in
  let w1 := (send_post_to_channel env ev_pub user_id w).2 in
  let w2 := (send_post_to_channel_group env ev_echo w1).2 in
  bot_data w1 !! key = Some user_id ∧
  (∃ rest, effects w2 = effects w1 ++ UserIsCredited user_id :: rest) ∧
  bot_data w2 !! key = None ∧
  (∀ k, k ≠ key → bot_data w2 !! k = bot_data w1 !! k) ∧
  (∀ chat msg, (chat, msg) ≠ (channel_of_env, Some c) →
     bot_data w2 !! correlation_key chat msg
     = bot_data w1 !! correlation_key chat msg) ∧
  send_post_to_channel_group env ev_echo w2 = (Raises (KeyError key), w2).
Proof.
  intros Hc Hm Hcopy Hme Hf Hfc Hfm key w1 w2.
  assert (Hw1 : bot_data w1 !! key = Some user_id).
  { subst w1. rewrite (send_post_to_channel_comments ev_pub user_id w m Hc Hm).
    rewrite Hcopy. apply lookup_insert_eq. }
  assert (Hkey : correlation_key (Chat.id fc) (Message.forward_from_message_id echo)
                 = key).
  { rewrite Hfc, Hfm. reflexivity. }
  pose proof (send_post_to_channel_group_consumes ev_echo w1 echo fc user_id Hme Hf)
    as Hcons.
  simpl in Hcons. rewrite Hkey in Hcons.
  destruct (Hcons Hw1) as (Hdel & Heff). fold w2 in Hdel, Heff.
  assert (Hw2 : bot_data w2 !! key = None).
  { rewrite Hdel. apply lookup_delete_eq. }
  repeat split.
  - exact Hw1.
  - exact Heff.
  - exact Hw2.
  - intros k Hk. rewrite Hdel. apply lookup_delete_ne. congruence.
  - intros chat msg Hne. rewrite Hdel. apply lookup_delete_ne.
    intros Heq. apply correlation_key_inj in Heq as [<- <-]. apply Hne. reflexivity.
  - pose proof (send_post_to_channel_group_missing ev_echo w2 echo fc Hme Hf)
      as Hmiss.
    simpl in Hmiss. rewrite Hkey in Hmiss. exact (Hmiss Hw2).
Qed.

End Channel.

(** With comments enabled, the approved photo is copied bare and Alice's id is
    stored under the key of the copy. *)
Lemma send_post_to_channel_with_comments_witness :
  effects
    (send_post_to_channel (demo_env true false demo_answer (Returns None))
       approve_event 7 demo_world).2
  = [BotCall (Bot.copy_message (-1002) (-1001) 31 None)] ∧
  published_posts
    (send_post_to_channel (demo_env true false demo_answer (Returns None))
       approve_event 7 demo_world).2
  = [] ∧
  bot_data
    (send_post_to_channel (demo_env true false demo_answer (Returns None))
       approve_event 7 demo_world).2
  = {[ "-1002,42" := 7 ]}.
Proof.
  destruct (send_post_to_channel_with_comments
              (demo_env true false demo_answer (Returns None))
              approve_event 7 demo_world group_copy eq_refl eq_refl)
    as (Heff & Hpub & _ & Hrec).
  split; [exact Heff|]. split; [exact Hpub|].
  exact (proj2 (Hrec 42 eq_refl)).
Defined.

(** The echo of channel post 42 finds Alice's id, and only once. *)
Lemma correlation_entry_consumed_once_witness :
  bot_data
    (send_post_to_channel (demo_env true false demo_answer (Returns None))
       approve_event 7 demo_world).2 !! "-1002,42" = Some 7 ∧
  bot_data
    (send_post_to_channel_group (demo_env true false demo_answer (Returns None))
       echo_event
       (send_post_to_channel (demo_env true false demo_answer (Returns None))
          approve_event 7 demo_world).2).2 !! "-1002,42" = None ∧
  (send_post_to_channel_group (demo_env true false demo_answer (Returns None))
     echo_event
     (send_post_to_channel_group (demo_env true false demo_answer (Returns None))
        echo_event
        (send_post_to_channel (demo_env true false demo_answer (Returns None))
           approve_event 7 demo_world).2).2).1
  = Raises (KeyError "-1002,42").
Proof.
  destruct (correlation_entry_consumed_once
              (demo_env true false demo_answer (Returns None))
              approve_event echo_event 7 demo_world group_copy _ 42 channel
              eq_refl eq_refl eq_refl eq_refl eq_refl eq_refl eq_refl)
    as (Hrec & _ & Hgone & _ & _ & Hagain).
  split; [exact Hrec|]. split; [exact Hgone|].
  rewrite Hagain. reflexivity.
Defined.

(** C1 fails on the code.  With comments disabled, the approved photo, which
    is message 31 of the admin group, is copied to the channel, where the
    copy gets id 42; the attribution is then sent to the channel as a reply
    to message 31, the id in the admin group, not to the copy 42. *)
Theorem send_post_to_channel_reply_target :
  send_post_to_channel (demo_env false false demo_answer (Returns None))
    approve_event 7 demo_world
  = (Returns tt,
     mkWorld ∅ [] [PublishedPost.mk (-1002) 42]
       [BotCall (Bot.copy_message (-1002) (-1001) 31 (Some demo_vote_kb));
        UserIsCredited 7;
        BotCall (Bot.send_message (-1002) "by: Cosmic Llama" None (Some 31))]
       1).
Proof. reflexivity. Qed.

(** * Further properties of the code *)

(** ** Accessors and factories *)

Section MoreAccessors.

Implicit Types (ev : EventInfo) (upd : Update.t).

Lemma py_or_falsy (a b : pyval) : truthy (py_or a b) = false → py_or a b = b.
Proof.
  unfold py_or. destruct (truthy a) eqn:Ha; [|reflexivity].
  intros Hf. rewrite Hf in Ha. discriminate Ha.
Qed.

(** X1.  When is_valid_message_type is not true, what it returns is None:
    never an empty text and never the empty photo list, although both are
    operands of the chain. *)
Theorem is_valid_message_type_falsy_is_None ev :
  truthy (is_valid_message_type ev) = false → is_valid_message_type ev = PyNone.
Proof.
  unfold is_valid_message_type. destruct (message ev) as [m|]; [|reflexivity].
  intros Hf.
  do 7 (let Hcut := fresh "Hcut" in
        pose proof (py_or_falsy _ _ Hf) as Hcut;
        rewrite Hcut in Hf |- *; clear Hcut).
  destruct (Message.poll m); [discriminate Hf | reflexivity].
Qed.

Lemma is_valid_message_type_falsy_is_None_witness :
  is_valid_message_type (event_of service_message) = PyNone ∧
  is_valid_message_type
    (event_of (with_text "" (bare_message 14 private_chat (Some alice)))) = PyNone.
Proof.
  split; apply is_valid_message_type_falsy_is_None; reflexivity.
Defined.

(** X2.  chat_id, chat_type, is_private_chat and message_id are None exactly
    when the event has no message, and is_private_chat is True exactly when
    the message's chat is of type "private". *)
Theorem message_accessors_absent_iff ev :
  (chat_id ev = None ↔ message ev = None) ∧
  (chat_type ev = None ↔ message ev = None) ∧
  (is_private_chat ev = None ↔ message ev = None) ∧
  (message_id ev = None ↔ message ev = None) ∧
  (is_private_chat ev = Some true ↔
     ∃ m, message ev = Some m ∧ Chat.type (Message.chat m) = "private").
Proof.
  unfold is_private_chat, chat_id, chat_type, message_id.
  destruct (message ev) as [m|]; repeat split; try discriminate; try reflexivity.
  - intros [= Heq]. exists m. split; [reflexivity|].
    apply String.eqb_eq. exact Heq.
  - intros (m' & [= <-] & Ht). f_equal. apply String.eqb_eq. exact Ht.
  - intros (m' & [=] & _).
Qed.

(** X3.  from_callback raises AttributeError on an update without a callback
    query; otherwise the event it builds reports the query's id, data and
    sender and wraps the message the query was attached to.  An event built
    by from_message never has a query id or query data, and wraps the
    update's message. *)
Theorem factories_spec upd :
  (Update.callback_query upd = None → from_callback upd = Raises AttributeError) ∧
  (∀ q, Update.callback_query upd = Some q →
     ∃ ev, from_callback upd = Returns ev ∧
           message ev = CallbackQuery.message q ∧
           query_id ev = Some (CallbackQuery.id q) ∧
           query_data ev = CallbackQuery.data q ∧
           user_id ev = Returns (Some (User.id (CallbackQuery.from_user q))) ∧
           user_username ev = Returns (User.username (CallbackQuery.from_user q))) ∧
  (message (from_message upd) = Update.message upd ∧
   query_id (from_message upd) = None ∧
   query_data (from_message upd) = None).
Proof.
  unfold from_callback. split; [|split].
  - intros ->. reflexivity.
  - intros q ->. eexists. split; [reflexivity|]. repeat split.
  - repeat split.
Qed.

Lemma factories_spec_witness :
  from_callback (Update.mk (Some photo_post) None) = Raises AttributeError ∧
  (∃ ev, from_callback (Update.mk None (Some approval)) = Returns ev ∧
         message ev = Some group_copy ∧
         query_id ev = Some "q-77" ∧
         query_data ev = Some "meme_approve_yes" ∧
         user_id ev = Returns (Some 8) ∧
         user_username ev = Returns (Some "bob")).
Proof.
  split.
  - exact (proj1 (factories_spec (Update.mk (Some photo_post) None)) eq_refl).
  - exact (proj1 (proj2 (factories_spec (Update.mk None (Some approval))))
             approval eq_refl).
Defined.

(** X4.  answer_callback_query never lets a BadRequest reach its caller: it
    raises exactly when Telegram's answer to the call, made with the event's
    query id, is an error of another kind, and it raises that error. *)
Theorem answer_callback_query_swallows_BadRequest
    (reply : option string → option string → outcome bool) ev
    (text : option string) (e : exn) :
  answer_callback_query reply ev text = Raises e ↔
  reply (query_id ev) text = Raises e ∧ ∀ msg, e ≠ BadRequest msg.
Proof.
  unfold answer_callback_query.
  destruct (reply (query_id ev) text) as [b|e0].
  - split; [discriminate | intros [[=] _]].
  - destruct e0 as [|key| |msg|msg].
    4: { split; [discriminate|].
         intros [[= <-] Hne]. destruct (Hne msg eq_refl). }
    all: split; [|intros [[= <-] _]; reflexivity].
    all: intros [= <-]; split; [reflexivity|].
    all: intros msg'; discriminate.
Qed.

End MoreAccessors.

(** ** Correlation keys, again *)

(** X5.  Two (chat id, message id) pairs have the same correlation key
    exactly when they are the same pair, also when the message id is None. *)
Theorem correlation_key_eq_iff (c c' : Z) (m m' : option Z) :
  correlation_key c m = correlation_key c' m' ↔ c = c' ∧ m = m'.
Proof.
  split.
  - apply correlation_key_inj.
  - intros [-> ->]. reflexivity.
Qed.

(** ** Sign generator, again *)

Section MoreSign.

Variable env : Env.

Local Abbreviation names := (split newline (anonym_names env)).

(** No piece of a split contains the separator. *)
Lemma split_pieces_sep_free (sep : ascii) (s : string) :
  Forall (λ piece, string_forallb (λ c, negb (Ascii.eqb c sep)) piece = true)
         (split sep s).
Proof.
  induction s as [|c r IH]; simpl.
  - constructor; [reflexivity | constructor].
  - destruct (Ascii.eqb c sep) eqn:Hc.
    + constructor; [reflexivity | exact IH].
    + destruct (split sep r) as [|h t].
      * constructor; [simpl; rewrite Hc; reflexivity | constructor].
      * inversion IH as [|? ? Hh Ht]; subst.
        constructor; [simpl; rewrite Hc; exact Hh | exact Ht].
Qed.

Lemma pick_newline_free (n : nat) :
  string_forallb (λ c, negb (Ascii.eqb c newline)) (pick env n names) = true.
Proof.
  pose proof (split_pieces_sep_free newline (anonym_names env)) as Hall.
  rewrite Forall_forall in Hall. apply Hall.
  apply pick_elem_of, split_nonempty.
Qed.

(** X6.  Whatever get_user_sign returns is either a line of the names list,
    which holds no newline, or "@" followed by the non-empty username Telegram
    gave for a credited user. *)
Theorem get_user_sign_shape (user_id : Z) (w w' : World) (sign : string) :
  get_user_sign env user_id w = (Returns sign, w') →
  (sign ∈ names ∧
   string_forallb (λ c, negb (Ascii.eqb c newline)) sign = true) ∨
  (is_credited env user_id = true ∧
   ∃ handle, handle ≠ "" ∧
     chat_username env (effects w ++ [UserIsCredited user_id]) user_id
       = Returns (Some handle) ∧
     sign = "@" +:+ handle).
Proof.
  assert (Hname : pick env (draws w) names ∈ names ∧
                  string_forallb (λ c, negb (Ascii.eqb c newline))
                    (pick env (draws w) names) = true).
  { split; [apply pick_elem_of, split_nonempty | apply pick_newline_free]. }
  destruct (is_credited env user_id) eqn:Hc.
  - rewrite get_user_sign_credited by exact Hc.
    destruct (chat_username env _ user_id) as [[h|]|e] eqn:Hh.
    + destruct (String.eqb h "") eqn:Hempty.
      * intros [= <- _]. left. exact Hname.
      * intros [= <- _]. right. split; [reflexivity|].
        exists h. apply String.eqb_neq in Hempty. auto.
    + intros [= <- _]. left. exact Hname.
    + discriminate.
  - rewrite get_user_sign_anonymous by exact Hc.
    intros [= <- _]. left. exact Hname.
Qed.

(** X7.  get_user_sign asks Telegram about a user only when the user is
    credited: for any other user the lookup of the preference is its only
    effect.  It raises exactly when that getChat call raises, and raises the
    same error. *)
Theorem get_user_sign_effects_and_errors (user_id : Z) (w : World) :
  effects (get_user_sign env user_id w).2
  = effects w ++ UserIsCredited user_id ::
      (if is_credited env user_id then [BotCall (Bot.getChat user_id)] else []) ∧
  ∀ e, (get_user_sign env user_id w).1 = Raises e ↔
       is_credited env user_id = true ∧
       chat_username env (effects w ++ [UserIsCredited user_id]) user_id = Raises e.
Proof.
  destruct (is_credited env user_id) eqn:Hc.
  - rewrite get_user_sign_credited by exact Hc. simpl. split.
    + rewrite <- app_assoc. reflexivity.
    + intros e. destruct (chat_username env _ user_id) as [[h|]|e0]; simpl.
      * destruct (String.eqb h ""); split; [discriminate | intros [_ [=]]
                                           | discriminate | intros [_ [=]]].
      * split; [discriminate | intros [_ [=]]].
      * split; [intros [= <-]; auto | intros [_ [= <-]]; reflexivity].
  - rewrite get_user_sign_anonymous by exact Hc. simpl. split; [reflexivity|].
    intros e. split; [discriminate | intros [[=] _]].
Qed.

End MoreSign.

Lemma get_user_sign_shape_witness :
  (("Cosmic Llama" ∈ ["Cosmic Llama"; "Silent Otter"] ∧
    string_forallb (λ c, negb (Ascii.eqb c newline)) "Cosmic Llama" = true) ∨
   (false = true ∧
    ∃ handle, handle ≠ "" ∧ Returns None = Returns (Some handle) ∧
      "Cosmic Llama" = "@" +:+ handle)) ∧
  (("@alice" ∈ ["Cosmic Llama"; "Silent Otter"] ∧
    string_forallb (λ c, negb (Ascii.eqb c newline)) "@alice" = true) ∨
   (true = true ∧
    ∃ handle, handle ≠ "" ∧ Returns (Some "alice") = Returns (Some handle) ∧
      "@alice" = "@" +:+ handle)).
Proof.
  split.
  - exact (get_user_sign_shape
             (demo_env false false demo_answer (Returns None))
             7 demo_world _ "Cosmic Llama" eq_refl).
  - exact (get_user_sign_shape
             (demo_env false true demo_answer (Returns (Some "alice")))
             7 demo_world _ "@alice" eq_refl).
Defined.

(** ** Post forwarder, again *)

Section MoreForwarder.

Variable env : Env.

Local Abbreviation channel_of_env := (channel_id (config env)).
Local Abbreviation group_of_env := (channel_group_id (config env)).

(** send_post_to_channel_group from the point where the entry is found. *)
Lemma send_post_to_channel_group_found (ev : EventInfo) (w : World)
    (m : Message.t) (fc : Chat.t) (user_id : Z) :
  message ev = Some m →
  Message.forward_from_chat m = Some fc →
  let key := correlation_key (Chat.id fc) (Message.forward_from_message_id m) in
  bot_data w !! key = Some user_id →
  send_post_to_channel_group env ev w
  = match get_user_sign env user_id (set_bot_data (delete key (bot_data w)) w) with
    | (Returns sign, w1) =>
        let c := Bot.send_message group_of_env ("by: " +:+ sign)
                   (Some (get_vote_kb env)) (Some (Message.message_id m)) in
        match sent_message_id env (effects w1) c with
        | Returns p =>
            (Returns tt,
             add_published (PublishedPost.mk group_of_env p)
               (log_effect (BotCall c) w1))
        | Raises e => (Raises e, log_effect (BotCall c) w1)
        end
    | (Raises e, w1) => (Raises e, w1)
    end.
Proof.
  intros Hm Hf key Hk. unfold send_post_to_channel_group, bind, attr.
  rewrite Hm. simpl. rewrite Hf. simpl. fold key.
  unfold bot_data_get, bot_data_del. rewrite Hk. simpl. rewrite Hk.
  destruct (get_user_sign env user_id _) as [[sign|e] w1]; [|reflexivity].
  unfold bot_send, PublishedPost_create.
  destruct (sent_message_id env (effects w1) _); reflexivity.
Qed.

(** Where send_post_to_channel_group stops before it has done anything. *)
Lemma send_post_to_channel_group_stops (ev : EventInfo) (w : World) :
  (message ev = None ∨
   (∃ m, message ev = Some m ∧ Message.forward_from_chat m = None) ∨
   (∃ m fc, message ev = Some m ∧ Message.forward_from_chat m = Some fc ∧
      bot_data w !! correlation_key (Chat.id fc) (Message.forward_from_message_id m)
      = None)) →
  (send_post_to_channel_group env ev w).2 = w.
Proof.
  unfold send_post_to_channel_group, bind, attr, bot_data_get.
  intros [Hm | [(m & Hm & Hf) | (m & fc & Hm & Hf & Hk)]].
  - rewrite Hm. reflexivity.
  - rewrite Hm. simpl. rewrite Hf. reflexivity.
  - rewrite Hm. simpl. rewrite Hf. simpl. rewrite Hk. reflexivity.
Qed.

(** X8.  Whatever happens, the only change send_post_to_channel_group makes
    to the correlation store is to remove the entry of the post the message
    was forwarded from: every other key reads as before, nothing is added,
    and no PendingPost is created or removed. *)
Theorem send_post_to_channel_group_only_removes (ev : EventInfo) (w : World) :
  pending_posts (send_post_to_channel_group env ev w).2 = pending_posts w ∧
  ∀ k,
    bot_data (send_post_to_channel_group env ev w).2 !! k = bot_data w !! k ∨
    (bot_data (send_post_to_channel_group env ev w).2 !! k = None ∧
     ∃ m fc, message ev = Some m ∧ Message.forward_from_chat m = Some fc ∧
       k = correlation_key (Chat.id fc) (Message.forward_from_message_id m)).
Proof.
  destruct (message ev) as [m|] eqn:Hm.
  2: { rewrite send_post_to_channel_group_stops by (left; exact Hm). auto. }
  destruct (Message.forward_from_chat m) as [fc|] eqn:Hf.
  2: { rewrite send_post_to_channel_group_stops by (right; left; eauto). auto. }
  set (key := correlation_key (Chat.id fc) (Message.forward_from_message_id m)).
  destruct (bot_data w !! key) as [uid|] eqn:Hk.
  2: { rewrite send_post_to_channel_group_stops
         by (right; right; exists m, fc; auto).
       auto. }
  destruct (send_post_to_channel_group_consumes env ev w m fc uid Hm Hf Hk)
    as (Hdel & _).
  split.
  - rewrite (send_post_to_channel_group_found ev w m fc uid Hm Hf Hk). fold key.
    pose proof (get_user_sign_stores env uid
                  (set_bot_data (delete key (bot_data w)) w)) as (_ & Hp & _).
    destruct (get_user_sign env uid _) as [[sign|e] w1]; simpl in *;
      [|exact Hp].
    destruct (sent_message_id env (effects w1) _); exact Hp.
  - intros k. rewrite Hdel. fold key. destruct (decide (k = key)) as [->|Hne].
    + right. split; [apply lookup_delete_eq|]. exists m, fc. auto.
    + left. apply lookup_delete_ne. congruence.
Qed.

(** X9.  send_post_to_channel_group raises, and leaves the world as it was,
    making no call, when the event has no message or the message is not a
    forward (AttributeError), and when no entry is stored for the post it was
    forwarded from (KeyError with the key that was looked up). *)
Theorem send_post_to_channel_group_rejects (ev : EventInfo) (w : World) :
  (message ev = None →
   send_post_to_channel_group env ev w = (Raises AttributeError, w)) ∧
  (∀ m, message ev = Some m → Message.forward_from_chat m = None →
   send_post_to_channel_group env ev w = (Raises AttributeError, w)) ∧
  (∀ m fc, message ev = Some m → Message.forward_from_chat m = Some fc →
   bot_data w !! correlation_key (Chat.id fc) (Message.forward_from_message_id m)
     = None →
   send_post_to_channel_group env ev w
   = (Raises (KeyError (correlation_key (Chat.id fc)
                          (Message.forward_from_message_id m))), w)).
Proof.
  unfold send_post_to_channel_group, bind, attr, bot_data_get.
  split; [|split].
  - intros ->. reflexivity.
  - intros m -> Hf. simpl. rewrite Hf. reflexivity.
  - intros m fc -> Hf Hk. simpl. rewrite Hf. simpl. rewrite Hk. reflexivity.
Qed.

(** X10.  Once the entry has been found, a failure of what follows (getChat
    for a credited user, or the sending of the attribution) is raised to the
    caller with the entry already deleted and no PublishedPost created: the
    submitter's id is lost. *)
Theorem send_post_to_channel_group_failure_loses_entry (ev : EventInfo)
    (w : World) (m : Message.t) (fc : Chat.t) (user_id : Z) (e : exn) :
  message ev = Some m →
  Message.forward_from_chat m = Some fc →
  bot_data w !! correlation_key (Chat.id fc) (Message.forward_from_message_id m)
    = Some user_id →
  (send_post_to_channel_group env ev w).1 = Raises e →
  bot_data (send_post_to_channel_group env ev w).2
    !! correlation_key (Chat.id fc) (Message.forward_from_message_id m) = None ∧
  published_posts (send_post_to_channel_group env ev w).2 = published_posts w.
Proof.
  intros Hm Hf Hk.
  destruct (send_post_to_channel_group_consumes env ev w m fc user_id Hm Hf Hk)
    as (Hdel & _).
  rewrite Hdel.
  rewrite (send_post_to_channel_group_found ev w m fc user_id Hm Hf Hk).
  set (wd := set_bot_data _ w).
  pose proof (get_user_sign_stores env user_id wd) as (_ & _ & Hp).
  destruct (get_user_sign env user_id wd) as [[sign|e1] w1]; simpl in *.
  - destruct (sent_message_id env (effects w1) _) as [p|e1]; simpl;
      [discriminate|].
    intros _. split; [apply lookup_delete_eq | exact Hp].
  - intros _. split; [apply lookup_delete_eq | exact Hp].
Qed.

(** X11.  When the entry is found, the sign obtained and the attribution
    sent, send_post_to_channel_group returns with the entry deleted, one
    message sent to the discussion group ("by: " and the sign, with the vote
    keyboard, in reply to the forwarded message) and exactly one PublishedPost
    created, for the discussion group and the id of that message. *)
Theorem send_post_to_channel_group_publishes (ev : EventInfo) (w w1 : World)
    (m : Message.t) (fc : Chat.t) (user_id p : Z) (sign : string) :
  message ev = Some m →
  Message.forward_from_chat m = Some fc →
  let key := correlation_key (Chat.id fc) (Message.forward_from_message_id m) in
  let attribution :=
    Bot.send_message group_of_env ("by: " +:+ sign) (Some (get_vote_kb env))
      (Some (Message.message_id m)) in
  bot_data w !! key = Some user_id →
  get_user_sign env user_id (set_bot_data (delete key (bot_data w)) w)
    = (Returns sign, w1) →
  sent_message_id env (effects w1) attribution = Returns p →
  (send_post_to_channel_group env ev w).1 = Returns tt ∧
  bot_data (send_post_to_channel_group env ev w).2 = delete key (bot_data w) ∧
  effects (send_post_to_channel_group env ev w).2
  = effects w1 ++ [BotCall attribution] ∧
  published_posts (send_post_to_channel_group env ev w).2
  = published_posts w ++ [PublishedPost.mk group_of_env p].
Proof.
  intros Hm Hf key attribution Hk Hsign Hsent.
  rewrite (send_post_to_channel_group_found ev w m fc user_id Hm Hf Hk).
  fold key. rewrite Hsign. simpl. fold attribution. rewrite Hsent. simpl.
  pose proof (get_user_sign_stores env user_id
                (set_bot_data (delete key (bot_data w)) w)) as (Hb & _ & Hp).
  rewrite Hsign in Hb, Hp. simpl in Hb, Hp.
  rewrite Hb, Hp. auto.
Qed.

(** X12.  send_post_to_channel catches nothing: when the copy into the
    channel fails, with BadRequest or any other error, the error is raised to
    the caller after that single call, and nothing is recorded, neither a
    PublishedPost nor a correlation entry, whether comments are enabled or
    not. *)
Theorem send_post_to_channel_copy_failure (ev : EventInfo) (user_id : Z)
    (w : World) (m : Message.t) (e : exn) :
  message ev = Some m →
  let copy :=
    Bot.copy_message channel_of_env (Message.chat_id m) (Message.message_id m)
      (if comments (config env) then None else Some (get_vote_kb env)) in
  sent_message_id env (effects w) copy = Raises e →
  (send_post_to_channel env ev user_id w).1 = Raises e ∧
  effects (send_post_to_channel env ev user_id w).2 = effects w ++ [BotCall copy] ∧
  bot_data (send_post_to_channel env ev user_id w).2 = bot_data w ∧
  published_posts (send_post_to_channel env ev user_id w).2 = published_posts w.
Proof.
  intros Hm copy Hcopy. unfold send_post_to_channel, bind, attr.
  rewrite Hm. simpl. unfold bot_send.
  subst copy. destruct (comments (config env)); simpl in *;
    rewrite Hcopy; auto.
Qed.

(** X13.  With comments disabled, once the copy has returned id [c] the
    PublishedPost for (channel id, [c]) is created before the sign is looked
    up: it is there even when what follows fails.  The copy carries the vote
    keyboard, the next thing looked up is the preference of the given user,
    and the correlation store is not touched. *)
Theorem send_post_to_channel_without_comments (ev : EventInfo) (user_id : Z)
    (w : World) (m : Message.t) (c : Z) :
  comments (config env) = false →
  message ev = Some m →
  let copy :=
    Bot.copy_message channel_of_env (Message.chat_id m) (Message.message_id m)
      (Some (get_vote_kb env)) in
  sent_message_id env (effects w) copy = Returns c →
  published_posts (send_post_to_channel env ev user_id w).2
  = published_posts w ++ [PublishedPost.mk channel_of_env c] ∧
  bot_data (send_post_to_channel env ev user_id w).2 = bot_data w ∧
  ∃ rest,
    effects (send_post_to_channel env ev user_id w).2
    = effects w ++ BotCall copy :: UserIsCredited user_id :: rest.
Proof.
  intros Hc Hm copy Hcopy. unfold send_post_to_channel, bind, attr.
  rewrite Hm, Hc. simpl. fold copy. rewrite Hcopy.
  set (wp := add_published _ (log_effect (BotCall copy) w)).
  pose proof (get_user_sign_stores env user_id wp) as (Hb & _ & Hp).
  pose proof (get_user_sign_effects env user_id wp) as (rest & He).
  replace (effects wp) with (effects w ++ [BotCall copy]) in He by reflexivity.
  rewrite <- app_assoc in He. simpl in He.
  destruct (get_user_sign env user_id wp) as [[sign|e] w1]; simpl in *.
  - destruct (sent_message_id env (effects w1) _); simpl;
      (split; [exact Hp|]); (split; [exact Hb|]);
      rewrite He; eexists;
      rewrite <- app_assoc; simpl; reflexivity.
  - split; [exact Hp|]. split; [exact Hb|]. eexists. exact He.
Qed.

(** X14.  On an event without a message, send_post_to_admins and
    send_post_to_channel raise AttributeError and do nothing else; so does
    send_post_to_admins when the message is not a reply. *)
Theorem forwarders_need_their_message (ev : EventInfo) (user_id : Z) (w : World) :
  (message ev = None →
   send_post_to_admins env ev w = (Raises AttributeError, w) ∧
   send_post_to_channel env ev user_id w = (Raises AttributeError, w)) ∧
  (∀ m, message ev = Some m → Message.reply_to_message m = None →
   send_post_to_admins env ev w = (Raises AttributeError, w)).
Proof.
  unfold send_post_to_admins, send_post_to_channel, bind, attr. split.
  - intros ->. split; reflexivity.
  - intros m -> Hr. simpl. rewrite Hr. reflexivity.
Qed.

(** Two echoes, one after the other, of two posts whose entries are both
    stored: each looks up the submitter stored for its own post, and both
    entries are gone afterwards. *)
Lemma two_echoes_in_turn (echo_1 echo_2 : EventInfo) (w : World)
    (fwd_1 fwd_2 : Message.t) (fc_1 fc_2 : Chat.t) (user_1 user_2 : Z) :
  message echo_1 = Some fwd_1 →
  Message.forward_from_chat fwd_1 = Some fc_1 →
  message echo_2 = Some fwd_2 →
  Message.forward_from_chat fwd_2 = Some fc_2 →
  let k_1 := correlation_key (Chat.id fc_1) (Message.forward_from_message_id fwd_1) in
  let k_2 := correlation_key (Chat.id fc_2) (Message.forward_from_message_id fwd_2) in
  k_1 ≠ k_2 →
  bot_data w !! k_1 = Some user_1 →
  bot_data w !! k_2 = Some user_2 →
  let w1 := (send_post_to_channel_group env echo_1 w).2 in
  let w2 := (send_post_to_channel_group env echo_2 w1).2 in
  (∃ rest, effects w1 = effects w ++ UserIsCredited user_1 :: rest) ∧
  (∃ rest, effects w2 = effects w1 ++ UserIsCredited user_2 :: rest) ∧
  bot_data w2 !! k_1 = None ∧
  bot_data w2 !! k_2 = None.
Proof.
  intros He1 Hf1 He2 Hf2 k_1 k_2 Hne H1 H2 w1 w2.
  destruct (send_post_to_channel_group_consumes env echo_1 w fwd_1 fc_1 user_1
              He1 Hf1 H1) as (Hdel1 & Heff1).
  fold k_1 w1 in Hdel1, Heff1.
  assert (H2' : bot_data w1 !! k_2 = Some user_2).
  { rewrite Hdel1, lookup_delete_ne by exact Hne. exact H2. }
  destruct (send_post_to_channel_group_consumes env echo_2 w1 fwd_2 fc_2 user_2
              He2 Hf2 H2') as (Hdel2 & Heff2).
  fold k_2 w2 in Hdel2, Heff2.
  split; [exact Heff1|]. split; [exact Heff2|]. split.
  - rewrite Hdel2, lookup_delete_ne by congruence.
    rewrite Hdel1. apply lookup_delete_eq.
  - rewrite Hdel2. apply lookup_delete_eq.
Qed.

(** X15.  With comments enabled, two posts published one after the other and
    copied under different ids are each credited to their own submitter,
    whether the echoes arrive in the order of publication or in the other
    order; after both echoes neither entry is left. *)
Theorem echoes_credit_their_own_submitter (ev_a ev_b echo_a echo_b : EventInfo)
    (user_a user_b : Z) (w : World) (m_a m_b fwd_a fwd_b : Message.t)
    (c_a c_b : Z) (fc_a fc_b : Chat.t) :
  comments (config env) = true →
  message ev_a = Some m_a →
  message ev_b = Some m_b →
  let w_a := (send_post_to_channel env ev_a user_a w).2 in
  let w_ab := (send_post_to_channel env ev_b user_b w_a).2 in
  sent_message_id env (effects w)
    (Bot.copy_message channel_of_env (Message.chat_id m_a)
       (Message.message_id m_a) None) = Returns c_a →
  sent_message_id env (effects w_a)
    (Bot.copy_message channel_of_env (Message.chat_id m_b)
       (Message.message_id m_b) None) = Returns c_b →
  c_a ≠ c_b →
  message echo_a = Some fwd_a →
  Message.forward_from_chat fwd_a = Some fc_a →
  Chat.id fc_a = channel_of_env →
  Message.forward_from_message_id fwd_a = Some c_a →
  message echo_b = Some fwd_b →
  Message.forward_from_chat fwd_b = Some fc_b →
  Chat.id fc_b = channel_of_env →
  Message.forward_from_message_id fwd_b = Some c_b →
  let w1 := (send_post_to_channel_group env echo_b w_ab).2 in
  let w2 := (send_post_to_channel_group env echo_a w1).2 in
  let v1 := (send_post_to_channel_group env echo_a w_ab).2 in
  let v2 := (send_post_to_channel_group env echo_b v1).2 in
  ((∃ rest, effects w1 = effects w_ab ++ UserIsCredited user_b :: rest) ∧
   (∃ rest, effects w2 = effects w1 ++ UserIsCredited user_a :: rest) ∧
   bot_data w2 !! correlation_key channel_of_env (Some c_a) = None ∧
   bot_data w2 !! correlation_key channel_of_env (Some c_b) = None) ∧
  ((∃ rest, effects v1 = effects w_ab ++ UserIsCredited user_a :: rest) ∧
   (∃ rest, effects v2 = effects v1 ++ UserIsCredited user_b :: rest) ∧
   bot_data v2 !! correlation_key channel_of_env (Some c_a) = None ∧
   bot_data v2 !! correlation_key channel_of_env (Some c_b) = None).
Proof.
  intros Hc Hma Hmb w_a w_ab Hca Hcb Hne
         Hea Hfa Hida Hfma Heb Hfb Hidb Hfmb w1 w2 v1 v2.
  set (k_a := correlation_key channel_of_env (Some c_a)).
  set (k_b := correlation_key channel_of_env (Some c_b)).
  assert (Hk : k_a ≠ k_b).
  { intros Heq. apply correlation_key_inj in Heq as [_ [= Heq]]. contradiction. }
  assert (Hwa : bot_data w_a = <[k_a := user_a]> (bot_data w)).
  { subst w_a. rewrite (send_post_to_channel_comments env ev_a user_a w m_a Hc Hma).
    rewrite Hca. reflexivity. }
  assert (Hwab : bot_data w_ab = <[k_b := user_b]> (bot_data w_a)).
  { subst w_ab.
    rewrite (send_post_to_channel_comments env ev_b user_b w_a m_b Hc Hmb).
    rewrite Hcb. reflexivity. }
  assert (Hkeyb : correlation_key (Chat.id fc_b)
                    (Message.forward_from_message_id fwd_b) = k_b).
  { rewrite Hidb, Hfmb. reflexivity. }
  assert (Hkeya : correlation_key (Chat.id fc_a)
                    (Message.forward_from_message_id fwd_a) = k_a).
  { rewrite Hida, Hfma. reflexivity. }
  assert (Hb : bot_data w_ab !! k_b = Some user_b).
  { rewrite Hwab. apply lookup_insert_eq. }
  assert (Ha : bot_data w_ab !! k_a = Some user_a).
  { rewrite Hwab, lookup_insert_ne by congruence.
    rewrite Hwa. apply lookup_insert_eq. }
  split.
  - pose proof (two_echoes_in_turn echo_b echo_a w_ab fwd_b fwd_a fc_b fc_a
                  user_b user_a Heb Hfb Hea Hfa) as Hturn.
    simpl in Hturn. rewrite Hkeya, Hkeyb in Hturn.
    destruct (Hturn (not_eq_sym Hk) Hb Ha) as (H1 & H2 & H3 & H4).
    repeat split; assumption.
  - pose proof (two_echoes_in_turn echo_a echo_b w_ab fwd_a fwd_b fc_a fc_b
                  user_a user_b Hea Hfa Heb Hfb) as Hturn.
    simpl in Hturn. rewrite Hkeya, Hkeyb in Hturn.
    destruct (Hturn Hk Ha Hb) as (H1 & H2 & H3 & H4).
    repeat split; assumption.
Qed.

End MoreForwarder.

(** The echo of post 42 when the attribution cannot be sent: the entry is
    gone and nothing is published. *)
Lemma send_post_to_channel_group_failure_loses_entry_witness :
  bot_data
    (send_post_to_channel_group
       (demo_env true false (λ _, Raises (BadRequest "Replied message not found"))
          (Returns None))
       echo_event awaiting_echo).2 !! "-1002,42" = None ∧
  published_posts
    (send_post_to_channel_group
       (demo_env true false (λ _, Raises (BadRequest "Replied message not found"))
          (Returns None))
       echo_event awaiting_echo).2 = [].
Proof.
  exact (send_post_to_channel_group_failure_loses_entry
           (demo_env true false
              (λ _, Raises (BadRequest "Replied message not found"))
              (Returns None))
           echo_event awaiting_echo _ channel 7
           (BadRequest "Replied message not found")
           eq_refl eq_refl eq_refl eq_refl).
Defined.

(** The echo of post 42 on a good day. *)
Lemma send_post_to_channel_group_publishes_witness :
  (send_post_to_channel_group (demo_env true false demo_answer (Returns None))
     echo_event awaiting_echo).1 = Returns tt ∧
  effects
    (send_post_to_channel_group (demo_env true false demo_answer (Returns None))
       echo_event awaiting_echo).2
  = [UserIsCredited 7;
     BotCall (Bot.send_message (-1003) "by: Cosmic Llama" (Some demo_vote_kb)
                (Some 70))] ∧
  published_posts
    (send_post_to_channel_group (demo_env true false demo_answer (Returns None))
       echo_event awaiting_echo).2
  = [PublishedPost.mk (-1003) 43].
Proof.
  destruct (send_post_to_channel_group_publishes
              (demo_env true false demo_answer (Returns None))
              echo_event awaiting_echo _ _ channel 7 43 "Cosmic Llama"
              eq_refl eq_refl eq_refl eq_refl eq_refl)
    as (Hret & _ & Heff & Hpub).
  split; [exact Hret|]. split; [exact Heff | exact Hpub].
Defined.

(** A BadRequest on the copy is raised, in either mode. *)
Lemma send_post_to_channel_copy_failure_witness :
  (send_post_to_channel
     (demo_env false false (λ _, Raises (BadRequest "Message to copy not found"))
        (Returns None))
     approve_event 7 demo_world).1
  = Raises (BadRequest "Message to copy not found") ∧
  published_posts
    (send_post_to_channel
       (demo_env false false (λ _, Raises (BadRequest "Message to copy not found"))
          (Returns None))
       approve_event 7 demo_world).2 = [] ∧
  bot_data
    (send_post_to_channel
       (demo_env true false (λ _, Raises (TelegramError "Timed out"))
          (Returns None))
       approve_event 7 demo_world).2 = ∅.
Proof.
  destruct (send_post_to_channel_copy_failure
              (demo_env false false
                 (λ _, Raises (BadRequest "Message to copy not found"))
                 (Returns None))
              approve_event 7 demo_world group_copy _ eq_refl eq_refl)
    as (Hret & _ & _ & Hpub).
  destruct (send_post_to_channel_copy_failure
              (demo_env true false (λ _, Raises (TelegramError "Timed out"))
                 (Returns None))
              approve_event 7 demo_world group_copy _ eq_refl eq_refl)
    as (_ & _ & Hdata & _).
  split; [exact Hret|]. split; [exact Hpub | exact Hdata].
Defined.

(** The approved photo, published with the vote keyboard; here Telegram then
    refuses the attribution, and the PublishedPost is there all the same. *)
Lemma send_post_to_channel_without_comments_witness :
  published_posts
    (send_post_to_channel (demo_env false false demo_answer (Returns None))
       approve_event 7 demo_world).2
  = [PublishedPost.mk (-1002) 42] ∧
  (send_post_to_channel
     (demo_env false false
        (λ c, match c with
              | Bot.send_message _ _ _ _ => Raises (BadRequest "Replied message not found")
              | _ => demo_answer c
              end)
        (Returns None))
     approve_event 7 demo_world).1
  = Raises (BadRequest "Replied message not found") ∧
  published_posts
    (send_post_to_channel
       (demo_env false false
          (λ c, match c with
                | Bot.send_message _ _ _ _ => Raises (BadRequest "Replied message not found")
                | _ => demo_answer c
                end)
          (Returns None))
       approve_event 7 demo_world).2
  = [PublishedPost.mk (-1002) 42].
Proof.
  split; [|split].
  - exact (proj1 (send_post_to_channel_without_comments
                    (demo_env false false demo_answer (Returns None))
                    approve_event 7 demo_world group_copy 42
                    eq_refl eq_refl eq_refl)).
  - reflexivity.
  - exact (proj1 (send_post_to_channel_without_comments
                    (demo_env false false
                       (λ c, match c with
                             | Bot.send_message _ _ _ _ =>
                                 Raises (BadRequest "Replied message not found")
                             | _ => demo_answer c
                             end)
                       (Returns None))
                    approve_event 7 demo_world group_copy 42
                    eq_refl eq_refl eq_refl)).
Defined.

(** Alice's post is copied as 100 and Bob's as 101.  When the echo of 101
    arrives first it credits Bob (user 8) and the echo of 100 then credits
    Alice (user 7); when they arrive in the order of publication, Alice is
    credited first and Bob second. *)
Lemma echoes_credit_their_own_submitter_witness :
  let env := counting_env true false (Returns None) in
  let w_ab :=
    (send_post_to_channel env approve_event_2 8
       (send_post_to_channel env approve_event 7 demo_world).2).2 in
  let w1 := (send_post_to_channel_group env (echo_of 101) w_ab).2 in
  let w2 := (send_post_to_channel_group env (echo_of 100) w1).2 in
  let v1 := (send_post_to_channel_group env (echo_of 100) w_ab).2 in
  let v2 := (send_post_to_channel_group env (echo_of 101) v1).2 in
  ((∃ rest, effects w1 = effects w_ab ++ UserIsCredited 8 :: rest) ∧
   (∃ rest, effects w2 = effects w1 ++ UserIsCredited 7 :: rest) ∧
   bot_data w2 !! "-1002,100" = None ∧
   bot_data w2 !! "-1002,101" = None) ∧
  ((∃ rest, effects v1 = effects w_ab ++ UserIsCredited 7 :: rest) ∧
   (∃ rest, effects v2 = effects v1 ++ UserIsCredited 8 :: rest) ∧
   bot_data v2 !! "-1002,100" = None ∧
   bot_data v2 !! "-1002,101" = None).
Proof.
  exact (echoes_credit_their_own_submitter
           (counting_env true false (Returns None))
           approve_event approve_event_2 (echo_of 100) (echo_of 101)
           7 8 demo_world group_copy group_copy_2 _ _ 100 101 channel channel
           eq_refl eq_refl eq_refl eq_refl eq_refl
           ltac:(discriminate)
           eq_refl eq_refl eq_refl eq_refl eq_refl eq_refl eq_refl eq_refl).
Defined.

(** ** The sender of a message *)

